(** * pdf_merger.merge_pdfs: a shallow embedding and its properties

    The program under study is [merge_pdfs] of [src/pdf_merger.py]: it
    validates its argument, checks that every input path is an existing
    regular file, reads every input with PyPDF2, appends the pages to one
    [PdfWriter], and finally writes the writer to [output_path].

    The function is effectful (file system, standard output, exceptions), so
    it is embedded in a state-and-exception monad over an explicit [world].
    PyPDF2 is an external library: it is taken as an interface ([PyPDF2]).
    The operating-system calls are modelled on a small executable file
    system in which a path is identified with its spelling. *)

From Stdlib.Strings Require Import String Ascii Byte.
From Stdlib Require Import DecimalString.
From stdpp Require Import gmap strings list fin_maps.

Local Open Scope string_scope.
Local Open Scope list_scope.
Local Set Warnings "-register-all".

(** ** posixpath: [os.path.split], [os.path.dirname], [os.path.basename] *)

Module posixpath.

Definition is_sep (c : ascii) : bool := Ascii.eqb c "/"%char.

(** [cut_last_sep p] is [Some (p[:i], p[i:])] with [i = p.rfind('/') + 1]
    when [p] contains a separator, and [None] (that is [i = 0]) when it
    does not. *)
Fixpoint cut_last_sep (p : string) : option (string * string) :=
  match p with
  | EmptyString => None
  | String c r =>
      match cut_last_sep r with
      | Some (h, t) => Some (String c h, t)
      | None => if is_sep c then Some (String c EmptyString, r) else None
      end
  end.

(** [head.rstrip('/')] *)
Fixpoint rstrip_sep (s : string) : string :=
  match s with
  | EmptyString => EmptyString
  | String c r =>
      let r' := rstrip_sep r in
      if is_sep c && String.eqb r' "" then "" else String c r'
  end.

(** [head != '/' * len(head)] *)
Fixpoint only_seps (s : string) : bool :=
  match s with
  | EmptyString => true
  | String c r => is_sep c && only_seps r
  end.

Definition split (p : string) : string * string :=
  let '(head, tail) :=
    match cut_last_sep p with
    | Some ht => ht
    | None => ("", p)
    end in
  if negb (String.eqb head "") && negb (only_seps head)
  then (rstrip_sep head, tail)
  else (head, tail).

Definition dirname (p : string) : string := fst (split p).
Definition basename (p : string) : string := snd (split p).

End posixpath.

(** ** Python values and exceptions *)

(** The values [input_paths] can be bound to at run time: the function checks
    the type of its argument itself, so the embedding cannot start from a
    list of strings. *)
Inductive pyval : Type :=
  | PyNone
  | PyBool (b : bool)
  | PyInt (z : Z)
  | PyStr (s : string)
  | PyBytes (b : list byte)
  | PyTuple (l : list pyval)
  | PyList (l : list pyval).

Definition isinstance_list (v : pyval) : bool :=
  match v with PyList _ => true | _ => false end.

Definition isinstance_str (v : pyval) : bool :=
  match v with PyStr _ => true | _ => false end.

(** Truth value of an object, as [not v] tests it. *)
Definition truthy (v : pyval) : bool :=
  match v with
  | PyNone => false
  | PyBool b => b
  | PyInt z => negb (Z.eqb z 0)
  | PyStr s => negb (String.eqb s "")
  | PyBytes b => negb (Nat.eqb (length b) 0)
  | PyTuple l => negb (Nat.eqb (length l) 0)
  | PyList l => negb (Nat.eqb (length l) 0)
  end.

(** The elements a [for] loop or a generator over the value visits (only
    used once the value is known to be a list). *)
Definition items (v : pyval) : list pyval :=
  match v with PyList l | PyTuple l => l | _ => [] end.

(** The elements of a list of [str], as strings. *)
Definition str_items (v : pyval) : list string :=
  omap (fun x => match x with PyStr s => Some s | _ => None end) (items v).

(** The exception classes the function raises, catches or can meet.
    [OSError] is also [IOError] (an alias in Python 3); the five classes
    before it are its subclasses. [LibraryError] stands for any other
    subclass of [Exception] that PyPDF2 may raise. *)
Inductive exn_class : Type :=
  | ValueError
  | FileNotFoundError
  | FileExistsError
  | PermissionError
  | IsADirectoryError
  | NotADirectoryError
  | OSError
  | PdfReadError
  | LibraryError
  | Exception.

Record exn : Type := Exn { exn_cls : exn_class; exn_msg : string }.

Definition is_OSError (c : exn_class) : bool :=
  match c with
  | FileNotFoundError | FileExistsError | PermissionError
  | IsADirectoryError | NotADirectoryError | OSError => true
  | _ => false
  end.

Definition is_PdfReadError (c : exn_class) : bool :=
  match c with PdfReadError => true | _ => false end.

(** [except (ValueError, FileNotFoundError, PyPDF2.errors.PdfReadError, IOError)] *)
Definition is_known_error (c : exn_class) : bool :=
  match c with
  | ValueError | FileNotFoundError | PdfReadError => true
  | _ => is_OSError c
  end.

(** ** The file system *)

Inductive node : Type :=
  | File (readable writable : bool) (data : list byte)
  | Dir (writable : bool).

(** What an operation that can fail returns: the exception, or the value. *)
Definition result (A : Type) : Type := exn + A.

Module os.

(** The entry at path [p]; the empty path names nothing. *)
Definition stat (fs : gmap string node) (p : string) : option node :=
  if String.eqb p "" then None else fs !! p.

(** [os.path.exists] *)
Definition path_exists (fs : gmap string node) (p : string) : bool :=
  match stat fs p with Some _ => true | None => false end.

(** [os.path.isfile] *)
Definition path_isfile (fs : gmap string node) (p : string) : bool :=
  match stat fs p with Some (File _ _ _) => true | _ => false end.

(** [os.path.isdir] *)
Definition path_isdir (fs : gmap string node) (p : string) : bool :=
  match stat fs p with Some (Dir _) => true | _ => false end.

Definition errno_msg (what p : string) : string := what +:+ ": " +:+ p.

(** May a new entry be created at [p]? Its parent directory must exist and
    be writable; an empty parent is the current directory. *)
Definition create_entry (fs : gmap string node) (p : string) : result unit :=
  if String.eqb p "" then
    inl (Exn FileNotFoundError (errno_msg "No such file or directory" p))
  else
    let d := posixpath.dirname p in
    if String.eqb d "" then inr tt
    else match stat fs d with
         | Some (Dir true) => inr tt
         | Some (Dir false) => inl (Exn PermissionError (errno_msg "Permission denied" p))
         | Some (File _ _ _) => inl (Exn NotADirectoryError (errno_msg "Not a directory" p))
         | None => inl (Exn FileNotFoundError (errno_msg "No such file or directory" p))
         end.

(** [open(p, 'rb')] followed by reading the whole file. *)
Definition open_rb (fs : gmap string node) (p : string) : result (list byte) :=
  match stat fs p with
  | Some (File true _ data) => inr data
  | Some (File false _ _) => inl (Exn PermissionError (errno_msg "Permission denied" p))
  | Some (Dir _) => inl (Exn IsADirectoryError (errno_msg "Is a directory" p))
  | None => inl (Exn FileNotFoundError (errno_msg "No such file or directory" p))
  end.

(** [open(p, 'wb')]: an existing file is truncated at once, a missing one
    is created empty (and readable and writable). *)
Definition open_wb (fs : gmap string node) (p : string) : result (gmap string node) :=
  match stat fs p with
  | Some (File r true _) => inr (<[p := File r true []]> fs)
  | Some (File _ false _) => inl (Exn PermissionError (errno_msg "Permission denied" p))
  | Some (Dir _) => inl (Exn IsADirectoryError (errno_msg "Is a directory" p))
  | None =>
      if String.eqb (posixpath.basename p) "" && negb (String.eqb p "") then
        (* a path that ends in a separator names a directory *)
        inl (Exn IsADirectoryError (errno_msg "Is a directory" p))
      else
        match create_entry fs p with
        | inl e => inl e
        | inr _ => inr (<[p := File true true []]> fs)
        end
  end.

(** [os.mkdir] *)
Definition mkdir (fs : gmap string node) (p : string) : result (gmap string node) :=
  match stat fs p with
  | Some _ => inl (Exn FileExistsError (errno_msg "File exists" p))
  | None =>
      match create_entry fs p with
      | inl e => inl e
      | inr _ => inr (<[p := Dir true]> fs)
      end
  end.

(** [os.makedirs(name)] (with [exist_ok=False]), after CPython's [os.py]:
    the missing ancestors are created first, a [FileExistsError] met on
    the way up is ignored, and the leaf is created with [mkdir]. The
    directories made before a failure stay. (CPython's shortcut for a
    final "." component is left out: paths are not normalised here.) [fuel] bounds the recursion,
    each call being on a strictly shorter path. *)
Fixpoint makedirs_rec (fuel : nat) (fs : gmap string node) (name : string)
  : option exn * gmap string node :=
  match fuel with
  | O => (Some (Exn OSError (errno_msg "File name too long" name)), fs)
  | S fuel' =>
      let '(head, tail) := posixpath.split name in
      let '(head, tail) :=
        if String.eqb tail "" then posixpath.split head else (head, tail) in
      let '(err, fs1) :=
        if negb (String.eqb head "") && negb (String.eqb tail "")
           && negb (path_exists fs head)
        then
          match makedirs_rec fuel' fs head with
          | (Some e, fs1) =>
              match exn_cls e with
              | FileExistsError => (None, fs1)
              | _ => (Some e, fs1)
              end
          | (None, fs1) => (None, fs1)
          end
        else (None, fs) in
      match err with
      | Some e => (Some e, fs1)
      | None =>
          match mkdir fs1 name with
          | inl e => (Some e, fs1)
          | inr fs2 => (None, fs2)
          end
      end
  end.

Definition makedirs (fs : gmap string node) (name : string)
  : option exn * gmap string node :=
  makedirs_rec (S (String.length name)) fs name.

End os.

(** ** The world, and the monad the embedding runs in *)

(** One constructor per [print] call of [merge_pdfs], carrying the values
    the f-string interpolates. *)
Inductive message : Type :=
  | MsgStarting
  | MsgInputFiles (input_paths : list string)
  | MsgOutputFile (output_path : string)
  | MsgProcessing (i n : nat) (name : string)
  | MsgWarnEmpty (name : string)
  | MsgNoPages
  | MsgCreatedDir (output_dir : string)
  | MsgSuccess (n : nat) (output_path : string)
  | MsgMergeFailed (e : string)
  | MsgUnexpected (e : string).

(** The calls into the operating system and into PyPDF2's reader, recorded
    in the order they are made (a call that fails is recorded too). The
    record is ghost state: the program cannot read it. *)
Inductive event : Type :=
  | EvExists (p : string)
  | EvIsFile (p : string)
  | EvOpenRead (p : string)
  | EvPdfReader (p : string)
  | EvMakedirs (d : string)
  | EvOpenWrite (p : string)
  | EvWrite (p : string) (n : nat).

Record world : Type := World {
  fs : gmap string node;        (* the file system *)
  disk_free : nat;              (* bytes that can still be written *)
  stdout : list message;        (* what has been printed, oldest first *)
  trace : list event            (* the calls made, oldest first *)
}.

Definition set_fs (f : gmap string node) (w : world) : world :=
  World f (disk_free w) (stdout w) (trace w).
Definition set_disk_free (n : nat) (w : world) : world :=
  World (fs w) n (stdout w) (trace w).
Definition add_stdout (m : message) (w : world) : world :=
  World (fs w) (disk_free w) (stdout w ++ [m]) (trace w).
Definition add_event (ev : event) (w : world) : world :=
  World (fs w) (disk_free w) (stdout w) (trace w ++ [ev]).

(** A computation: from a world to an exception or a value, and the world
    it leaves. *)
Definition M (A : Type) : Type := world -> result A * world.

Definition ret {A} (a : A) : M A := fun w => (inr a, w).

Definition raise {A} (e : exn) : M A := fun w => (inl e, w).

Definition bind {A B} (c : M A) (k : A -> M B) : M B :=
  fun w =>
    match c w with
    | (inr a, w') => k a w'
    | (inl e, w') => (inl e, w')
    end.

(** [try: body except ... as e: handler e] *)
Definition try_except {A} (body : M A) (handler : exn -> M A) : M A :=
  fun w =>
    match body w with
    | (inl e, w') => handler e w'
    | (inr a, w') => (inr a, w')
    end.

Declare Scope py_scope.
Delimit Scope py_scope with py.
Notation "x <- c1 ;; c2" := (bind c1 (fun x => c2))
  (at level 100, c1 at next level, right associativity) : py_scope.
Notation "c1 ;; c2" := (bind c1 (fun _ => c2))
  (at level 100, c2 at level 200, right associativity) : py_scope.
Local Open Scope py_scope.

Definition print (m : message) : M unit := fun w => (inr tt, add_stdout m w).

Definition log (ev : event) : M unit := fun w => (inr tt, add_event ev w).

(** [for x in l: body x] *)
Fixpoint for_each {A} (body : A -> M unit) (l : list A) : M unit :=
  match l with
  | [] => ret tt
  | x :: l' => body x ;; for_each body l'
  end.

(** The system calls, as computations. *)

Definition os_path_exists (p : string) : M bool :=
  log (EvExists p) ;; fun w => (inr (os.path_exists (fs w) p), w).

Definition os_path_isfile (p : string) : M bool :=
  log (EvIsFile p) ;; fun w => (inr (os.path_isfile (fs w) p), w).

Definition open_rb (p : string) : M (list byte) :=
  log (EvOpenRead p) ;; fun w => (os.open_rb (fs w) p, w).

Definition os_makedirs (d : string) : M unit :=
  log (EvMakedirs d) ;;
  fun w =>
    match os.makedirs (fs w) d with
    | (Some e, fs') => (inl e, set_fs fs' w)
    | (None, fs') => (inr tt, set_fs fs' w)
    end.

Definition open_wb (p : string) : M unit :=
  log (EvOpenWrite p) ;;
  fun w =>
    match os.open_wb (fs w) p with
    | inl e => (inl e, w)
    | inr fs' => (inr tt, set_fs fs' w)
    end.

(** What the file at [p] holds once [data] is put there. *)
Definition store (p : string) (data : list byte) (f : gmap string node)
  : gmap string node :=
  match f !! p with
  | Some (File r wr _) => <[p := File r wr data]> f
  | _ => f
  end.

(** Writing [data] to the file opened at [p] and closing it: when the disk
    is too full only the bytes that fit arrive, and [OSError] is raised. *)
Definition write_close (p : string) (data : list byte) : M unit :=
  log (EvWrite p (length data)) ;;
  fun w =>
    if Nat.leb (length data) (disk_free w) then
      (inr tt, set_disk_free (disk_free w - length data) (set_fs (store p data (fs w)) w))
    else
      (inl (Exn OSError "[Errno 28] No space left on device"),
       set_disk_free 0 (set_fs (store p (take (disk_free w) data) (fs w)) w)).

(** ** PyPDF2 *)

(** What [merge_pdfs] uses of the library. [PdfReader data] stands for
    [PyPDF2.PdfReader(pdf_file)] together with the accesses to
    [pdf_reader.pages] made on it: the pages of the document in document
    order, or the exception one of these raises (a [PdfReadError] for a
    malformed or encrypted file). [serialize] is what [PdfWriter.write]
    emits for a writer holding the given pages. [content_stream] is the
    decoded content stream of a page. *)
Class PyPDF2 : Type := {
  page : Type;
  content_stream : page -> list byte;
  PdfReader : list byte -> result (list page);
  serialize : list page -> list byte
}.

Section merge.

Context {lib : PyPDF2}.

(** [PyPDF2.PdfWriter]: the pages added so far. *)
Record PdfWriter : Type := { pages : list page }.

Definition add_page (pdf_writer : PdfWriter) (pg : page) : PdfWriter :=
  {| pages := pages pdf_writer ++ [pg] |}.

Definition call_PdfReader (p : string) (data : list byte) : M (list page) :=
  log (EvPdfReader p) ;; fun w => (PdfReader data, w).

(** Lines 30-34: one turn of the existence check. *)
Definition check_input (input_path : string) : M unit :=
  ex <- os_path_exists input_path ;;
  if negb ex then
    raise (Exn FileNotFoundError ("Input file not found: " +:+ input_path))
  else
    isf <- os_path_isfile input_path ;;
    if negb isf then
      raise (Exn FileNotFoundError ("Input path is not a file: " +:+ input_path))
    else ret tt.

(** Lines 51-62: the body of the inner [try]. The [continue] of line 57
    ends the turn with the writer as it was. *)
Definition read_into (input_path : string) (pdf_writer : PdfWriter) : M PdfWriter :=
  pdf_file <- open_rb input_path ;;
  pdf_reader <- call_PdfReader input_path pdf_file ;;
  if Nat.eqb (length pdf_reader) 0 then
    print (MsgWarnEmpty (posixpath.basename input_path)) ;;
    ret pdf_writer
  else
    ret (foldl
           (fun wr page_num =>
              match pdf_reader !! page_num with
              | Some pg => add_page wr pg
              | None => wr
              end)
           pdf_writer (seq 0 (length pdf_reader))).

(** Lines 65-70: the two handlers of the inner [try]. *)
Definition reraise_read_error (input_path : string) (e : exn) : exn :=
  if is_PdfReadError (exn_cls e) then
    Exn PdfReadError
      ("Error reading PDF file '" +:+ posixpath.basename input_path
         +:+ "': " +:+ exn_msg e)
  else
    Exn Exception
      ("An unexpected error occurred while processing '"
         +:+ posixpath.basename input_path +:+ "': " +:+ exn_msg e).

(** Lines 48-70: one turn of the main loop, for the [i]-th of [n] inputs. *)
Definition process_file (n i : nat) (input_path : string) (pdf_writer : PdfWriter)
  : M PdfWriter :=
  print (MsgProcessing (i + 1) n (posixpath.basename input_path)) ;;
  try_except (read_into input_path pdf_writer)
             (fun e => raise (reraise_read_error input_path e)).

(** Lines 47-70: [for i, input_path in enumerate(input_paths)]. *)
Fixpoint process_inputs (n i : nat) (input_paths : list string) (pdf_writer : PdfWriter)
  : M PdfWriter :=
  match input_paths with
  | [] => ret pdf_writer
  | input_path :: rest =>
      pdf_writer' <- process_file n i input_path pdf_writer ;;
      process_inputs n (S i) rest pdf_writer'
  end.

(** Lines 82-88: the parent directory of the output. *)
Definition ensure_output_dir (output_path : string) : M unit :=
  let output_dir := posixpath.dirname output_path in
  if String.eqb output_dir "" then ret tt
  else
    ex <- os_path_exists output_dir ;;
    if negb ex then
      try_except
        (os_makedirs output_dir ;; print (MsgCreatedDir output_dir))
        (fun e =>
           if is_OSError (exn_cls e) then
             raise (Exn OSError
                      ("Error creating output directory " +:+ output_dir
                         +:+ ": " +:+ exn_msg e))
           else raise e)
    else ret tt.

(** Lines 91-92: [with open(output_path, 'wb') as f: pdf_writer.write(f)]. *)
Definition write_output (output_path : string) (pdf_writer : PdfWriter) : M unit :=
  open_wb output_path ;;
  write_close output_path (serialize (pages pdf_writer)).

(** Lines 73-94: what follows the loop inside the outer [try]. *)
Definition finish (n : nat) (output_path : string) (pdf_writer : PdfWriter) : M unit :=
  (if Nat.eqb (length (pages pdf_writer)) 0 then print MsgNoPages else ret tt) ;;
  ensure_output_dir output_path ;;
  write_output output_path pdf_writer ;;
  print (MsgSuccess n output_path).

(** Lines 96-103: the handlers of the outer [try]; both print and re-raise. *)
Definition report_and_reraise {A} (e : exn) : M A :=
  if is_known_error (exn_cls e) then
    print (MsgMergeFailed (exn_msg e)) ;; raise e
  else
    print (MsgUnexpected (exn_msg e)) ;; raise e.

Definition merge_pdfs (input_paths : pyval) (output_path : string) : M unit :=
  if negb (isinstance_list input_paths) || negb (truthy input_paths) then
    raise (Exn ValueError "input_paths must be a non-empty list of file paths.")
  else if negb (forallb isinstance_str (items input_paths)) then
    raise (Exn ValueError "All elements in input_paths must be strings (file paths).")
  else
    let paths := str_items input_paths in
    for_each check_input paths ;;
    let pdf_writer := {| pages := [] |} in
    print MsgStarting ;;
    print (MsgInputFiles paths) ;;
    print (MsgOutputFile output_path) ;;
    try_except
      (pdf_writer' <- process_inputs (length paths) 0 paths pdf_writer ;;
       finish (length paths) output_path pdf_writer')
      report_and_reraise.

End merge.

(** ** Pure views of the phases

    What each phase of [merge_pdfs] returns, prints and calls is a function
    of the file system it starts in. These views are not part of the
    program: the lemmas below relate them to the embedded code. *)

Section views.

Context {lib : PyPDF2}.

(** Reading one input: [open(p, 'rb')], then the reader. *)
Definition read_pdf (f : gmap string node) (p : string) : result (list page) :=
  match os.open_rb f p with
  | inl e => inl e
  | inr data => PdfReader data
  end.

(** The document stored in a file: its pages as the reader sees them. *)
Definition page_count (data : list byte) : option nat :=
  match PdfReader data with
  | inr ps => Some (length ps)
  | inl _ => None
  end.

Definition is_regular (f : gmap string node) (p : string) : bool :=
  os.path_exists f p && os.path_isfile f p.

Fixpoint check_all (f : gmap string node) (paths : list string) : result unit :=
  match paths with
  | [] => inr tt
  | p :: rest =>
      if negb (os.path_exists f p) then
        inl (Exn FileNotFoundError ("Input file not found: " +:+ p))
      else if negb (os.path_isfile f p) then
        inl (Exn FileNotFoundError ("Input path is not a file: " +:+ p))
      else check_all f rest
  end.

Fixpoint check_events (f : gmap string node) (paths : list string) : list event :=
  match paths with
  | [] => []
  | p :: rest =>
      if negb (os.path_exists f p) then [EvExists p]
      else if negb (os.path_isfile f p) then [EvExists p; EvIsFile p]
      else EvExists p :: EvIsFile p :: check_events f rest
  end.

Definition file_events (f : gmap string node) (p : string) : list event :=
  match os.open_rb f p with
  | inl _ => [EvOpenRead p]
  | inr _ => [EvOpenRead p; EvPdfReader p]
  end.

Definition file_msgs (f : gmap string node) (n i : nat) (p : string) : list message :=
  MsgProcessing (i + 1) n (posixpath.basename p)
    :: match read_pdf f p with
       | inr [] => [MsgWarnEmpty (posixpath.basename p)]
       | _ => []
       end.

(** The pages the loop has accumulated when it ends, or the exception
    that ends it. *)
Fixpoint read_all (f : gmap string node) (paths : list string) (acc : list page)
  : result (list page) :=
  match paths with
  | [] => inr acc
  | p :: rest =>
      match read_pdf f p with
      | inl e => inl (reraise_read_error p e)
      | inr ps => read_all f rest (acc ++ ps)
      end
  end.

Fixpoint loop_msgs (f : gmap string node) (n i : nat) (paths : list string)
  : list message :=
  match paths with
  | [] => []
  | p :: rest =>
      file_msgs f n i p
        ++ match read_pdf f p with
           | inl _ => []
           | inr _ => loop_msgs f n (S i) rest
           end
  end.

Fixpoint loop_events (f : gmap string node) (paths : list string) : list event :=
  match paths with
  | [] => []
  | p :: rest =>
      file_events f p
        ++ match read_pdf f p with
           | inl _ => []
           | inr _ => loop_events f rest
           end
  end.

(** The calls that can change the file system. *)
Definition is_write_event (ev : event) : bool :=
  match ev with
  | EvMakedirs _ | EvOpenWrite _ | EvWrite _ _ => true
  | _ => false
  end.

(** The bytes of the file at [p], when there is a file. *)
Definition file_data (f : gmap string node) (p : string) : option (list byte) :=
  match f !! p with
  | Some (File _ _ data) => Some data
  | _ => None
  end.

(** The exception line 88 raises from the one [os.makedirs] raised. *)
Definition makedirs_error (output_dir : string) (e : exn) : exn :=
  Exn OSError ("Error creating output directory " +:+ output_dir +:+ ": " +:+ exn_msg e).

(** The world in which the output phase starts, when the checks and the
    reads went through. *)
Definition after_reads (paths : list string) (out : string) (w : world) : world :=
  World (fs w) (disk_free w)
        (stdout w ++ [MsgStarting; MsgInputFiles paths; MsgOutputFile out]
           ++ loop_msgs (fs w) (length paths) 0 paths)
        (trace w ++ check_events (fs w) paths ++ loop_events (fs w) paths).

(** The calls of the existence check. *)
Definition is_check_event (ev : event) : bool :=
  match ev with
  | EvExists _ | EvIsFile _ => true
  | _ => false
  end.

(** Does the text [sub] occur in [msg]? *)
Fixpoint mentions (msg sub : string) : bool :=
  String.prefix sub msg
  || match msg with
     | EmptyString => false
     | String _ rest => mentions rest sub
     end.

(** The output can be written without creating a directory: its parent is
    the current directory or exists, and [open(output_path, 'wb')]
    succeeds. *)
Definition destination_ready (f : gmap string node) (out : string) : bool :=
  (String.eqb (posixpath.dirname out) "" || os.path_exists f (posixpath.dirname out))
  && match os.open_wb f out with inr _ => true | inl _ => false end.

(** Every input is read, and [pss] lists what each holds. *)
Definition all_read (f : gmap string node) (paths : list string)
    (pss : list (list page)) : Prop :=
  Forall2 (fun p ps => read_pdf f p = inr ps) paths pss.

(** What the library promises: a document that [PdfWriter.write] emitted
    is read back with the pages it was given. *)
Definition reads_back_what_it_writes : Prop :=
  forall ps : list page, PdfReader (serialize ps) = inr ps.

(** The pages of the inputs that have pages. *)
Definition non_empty_docs (pss : list (list page)) : list (list page) :=
  List.filter (fun ps => negb (Nat.eqb (length ps) 0)) pss.

End views.

(** ** A small instance of the library, and worlds to run the program in *)

Module Toy.

(** A toy document format: the byte "P", then one byte per page (the byte
    is the page's content stream). A file starting with "E" is an
    encrypted document; anything else is malformed. *)
Definition toy_reader (data : list byte) : result (list byte) :=
  match data with
  | x50 :: ps => inr ps
  | x45 :: _ => inl (Exn PdfReadError "File has not been decrypted")
  | _ => inl (Exn PdfReadError "EOF marker not found")
  end.

Definition lib : PyPDF2 := {|
  page := byte;
  content_stream := fun pg => [pg];
  PdfReader := toy_reader;
  serialize := fun ps => x50 :: ps
|}.

Definition world_of (f : gmap string node) (free : nat) : world :=
  World f free [] [].

Definition run (input_paths : list string) (output_path : string) (w : world)
  : result unit * world :=
  merge_pdfs (lib := lib) (PyList (PyStr <$> input_paths)) output_path w.

(** A directory holding a two-page document, a one-page document, a
    document without pages, an encrypted document and a sub-directory. *)
Definition docs : gmap string node :=
  <["a.pdf" := File true true [x50; x01; x02]]>
    (<["b.pdf" := File true true [x50; x03]]>
       (<["z.pdf" := File true true [x50]]>
          (<["enc.pdf" := File true true [x45]]>
             (<["somedir" := Dir true]> ∅)))).

(** The same directory, with an earlier five-page output in place. *)
Definition docs_with_output : gmap string node :=
  <["out.pdf" := File true true [x50; x09; x09; x09; x09; x09]]> docs.

(** The worlds the examples start in: nothing printed, no call made. *)
Definition roomy : world := world_of docs 100.
Definition nearly_full : world := world_of docs_with_output 2.

End Toy.

(** ** pyside6_module: the worker thread and the main window

    [MergeWorker.run] and the slots of [MainWindow] are sequential code:
    the worker's body is embedded as a function from the world it runs in
    to the signals it emits, and each slot as a function on the state of
    the window. Qt itself (widgets, dialogs, the event loop) is outside:
    a dialog is what it returns, a message box is recorded when shown. *)

Module pyside6.

(** The signals of [MergeWorker] (lines 15-17). *)
Inductive signal : Type :=
  | progress (message : string)
  | finished (message : string)
  | error (e : exn).

(** [MergeWorker.__init__] (lines 19-22). *)
Record MergeWorker : Type := { input_paths : pyval; output_path : string }.

(** The message boxes [MainWindow] shows. *)
Inductive box : Type :=
  | warning (title text : string)
  | information (title text : string)
  | critical (title text : string).

(** The attributes of [MainWindow] its slots read or write; for a button,
    whether it is enabled; for the label, its text. [worker_thread] is
    [None] until [start_merge] sets it. [boxes] lists the message boxes
    shown so far, oldest first. *)
Record MainWindow : Type := {
  input_files : list string;
  output_file : string;
  label_status : string;
  btn_select_input : bool;
  btn_select_output : bool;
  btn_merge : bool;
  worker_thread : option MergeWorker;
  boxes : list box
}.

(** [MainWindow.__init__] (lines 47-75). *)
Definition init : MainWindow := {|
  input_files := [];
  output_file := "";
  label_status := "Ready";
  btn_select_input := true;
  btn_select_output := true;
  btn_merge := false;
  worker_thread := None;
  boxes := []
|}.

(** [str(n)] for a length. *)
Definition str_of_len (n : nat) : string := NilEmpty.string_of_uint (Nat.to_uint n).

(** Lines 104-106. *)
Definition check_merge_button_state (self : MainWindow) : MainWindow := {|
  input_files := input_files self;
  output_file := output_file self;
  label_status := label_status self;
  btn_select_input := btn_select_input self;
  btn_select_output := btn_select_output self;
  btn_merge := negb (Nat.eqb (length (input_files self)) 0)
               && negb (String.eqb (output_file self) "");
  worker_thread := worker_thread self;
  boxes := boxes self
|}.

(** Lines 77-87. [dialog] is what the file dialog gave: [None] when it was
    cancelled, the selected files when it was accepted. *)
Definition select_input_pdfs (dialog : option (list string)) (self : MainWindow)
  : MainWindow :=
  match dialog with
  | Some selected =>
      check_merge_button_state {|
        input_files := selected;
        output_file := output_file self;
        label_status := str_of_len (length selected) +:+ " files selected.";
        btn_select_input := btn_select_input self;
        btn_select_output := btn_select_output self;
        btn_merge := btn_merge self;
        worker_thread := worker_thread self;
        boxes := boxes self
      |}
  | None => self
  end.

(** Lines 89-102. *)
Definition select_output_pdf (dialog : option (list string)) (self : MainWindow)
  : MainWindow :=
  match dialog with
  | Some (selected :: _) =>
      check_merge_button_state {|
        input_files := input_files self;
        output_file := selected;
        label_status := "Output: " +:+ posixpath.basename selected;
        btn_select_input := btn_select_input self;
        btn_select_output := btn_select_output self;
        btn_merge := btn_merge self;
        worker_thread := worker_thread self;
        boxes := boxes self
      |}
  | Some [] => self
  | None => self
  end.

Definition show_box (b : box) (self : MainWindow) : MainWindow := {|
  input_files := input_files self;
  output_file := output_file self;
  label_status := label_status self;
  btn_select_input := btn_select_input self;
  btn_select_output := btn_select_output self;
  btn_merge := btn_merge self;
  worker_thread := worker_thread self;
  boxes := boxes self ++ [b]
|}.

Definition set_label (text : string) (self : MainWindow) : MainWindow := {|
  input_files := input_files self;
  output_file := output_file self;
  label_status := text;
  btn_select_input := btn_select_input self;
  btn_select_output := btn_select_output self;
  btn_merge := btn_merge self;
  worker_thread := worker_thread self;
  boxes := boxes self
|}.

(** Lines 108-132. The second component is the worker whose thread was
    started, if one was. *)
Definition start_merge (self : MainWindow) : MainWindow * option MergeWorker :=
  if Nat.eqb (length (input_files self)) 0 then
    (show_box (warning "Input Error" "Please select input PDF files.") self, None)
  else if String.eqb (output_file self) "" then
    (show_box (warning "Output Error" "Please select an output PDF file path.") self,
     None)
  else
    let worker := {| input_paths := PyList (PyStr <$> input_files self);
                     output_path := output_file self |} in
    ({| input_files := input_files self;
        output_file := output_file self;
        label_status := "Merging...";
        btn_select_input := false;
        btn_select_output := false;
        btn_merge := false;
        worker_thread := Some worker;
        boxes := boxes self |},
     Some worker).

(** Lines 134-136. *)
Definition update_status (message : string) (self : MainWindow) : MainWindow :=
  set_label message self.

(** Lines 150-154. *)
Definition reset_ui_state (self : MainWindow) : MainWindow :=
  check_merge_button_state {|
    input_files := input_files self;
    output_file := output_file self;
    label_status := label_status self;
    btn_select_input := true;
    btn_select_output := true;
    btn_merge := btn_merge self;
    worker_thread := worker_thread self;
    boxes := boxes self
  |}.

(** Lines 138-142. *)
Definition merge_finished (message : string) (self : MainWindow) : MainWindow :=
  reset_ui_state
    (show_box (information "Merge Complete" message)
       (set_label ("Done: " +:+ message) self)).

(** A line feed. *)
Definition LF : string := String "010"%char EmptyString.

(** Lines 144-148. *)
Definition merge_error (exception : exn) (self : MainWindow) : MainWindow :=
  reset_ui_state
    (show_box (critical "Merge Failed"
                 ("An error occurred during merge:" +:+ LF +:+ exn_msg exception))
       (set_label ("Error: " +:+ exn_msg exception) self)).

(** Lines 127-129: the slot each signal of the worker is connected to. *)
Definition deliver (s : signal) (self : MainWindow) : MainWindow :=
  match s with
  | progress message => update_status message self
  | finished message => merge_finished message self
  | error e => merge_error e self
  end.

Definition is_terminal (s : signal) : bool :=
  match s with progress _ => false | _ => true end.

Section worker.

Context {lib : PyPDF2}.

(** [MergeWorker.run] (lines 24-43): the signals emitted, in order, and the
    world left. Every exception class of the model is a subclass of
    [Exception], so the handler of line 41 catches whatever [merge_pdfs]
    raises. *)
Definition run (self : MergeWorker) (w : world) : list signal * world :=
  let emitted := [progress "Starting merge..."] in
  match merge_pdfs (input_paths self) (output_path self) w with
  | (inr _, w') =>
      (emitted ++ [finished ("Successfully merged into '"
                              +:+ posixpath.basename (output_path self) +:+ "'")],
       w')
  | (inl e, w') => (emitted ++ [error e], w')
  end.

(** A click on the merge button, followed through: [start_merge], then the
    run of the worker it started in the world [w], then the delivery of
    the worker's signals to their slots in the order of emission. *)
Definition merge_clicked (self : MainWindow) (w : world) : MainWindow * world :=
  match start_merge self with
  | (self', None) => (self', w)
  | (self', Some worker) =>
      let '(signals, w') := run worker w in
      (foldl (fun ui s => deliver s ui) self' signals, w')
  end.

(** The window and the signals emitted by the worker that are still to be
    delivered. *)
Record gui : Type := { window : MainWindow; queue : list signal }.

(** What can happen to the window. A button only sends [clicked] while it
    is enabled; the worker started by a click runs in some world and its
    signals are queued; queued signals reach their slots in order. *)
Inductive step : gui -> gui -> Prop :=
  | click_select_input (g : gui) (dialog : option (list string)) :
      btn_select_input (window g) = true ->
      step g {| window := select_input_pdfs dialog (window g); queue := queue g |}
  | click_select_output (g : gui) (dialog : option (list string)) :
      btn_select_output (window g) = true ->
      step g {| window := select_output_pdf dialog (window g); queue := queue g |}
  | click_merge (g : gui) (w : world) :
      btn_merge (window g) = true ->
      step g {| window := fst (start_merge (window g));
                queue := queue g
                         ++ match snd (start_merge (window g)) with
                            | Some worker => fst (run worker w)
                            | None => []
                            end |}
  | signal_delivered (g : gui) (s : signal) (rest : list signal) :
      queue g = s :: rest ->
      step g {| window := deliver s (window g); queue := rest |}.

(** The states the window can be in: those reached from the initial one. *)
Inductive reachable : gui -> Prop :=
  | reachable_init : reachable {| window := init; queue := [] |}
  | reachable_step (g g' : gui) : reachable g -> step g g' -> reachable g'.

End worker.

(** Both selections have been made. *)
Definition both_selected (self : MainWindow) : bool :=
  negb (Nat.eqb (length (input_files self)) 0)
  && negb (String.eqb (output_file self) "").

(** No merge is under way: the selection buttons are enabled, and the merge
    button is enabled exactly when both selections have been made. *)
Definition idle (self : MainWindow) : Prop :=
  btn_select_input self = true
  /\ btn_select_output self = true
  /\ btn_merge self = both_selected self.

(** A merge is under way: the three buttons are disabled. *)
Definition busy (self : MainWindow) : Prop :=
  btn_select_input self = false
  /\ btn_select_output self = false
  /\ btn_merge self = false.

(** The signals of one worker that are still to come: its terminal signal,
    maybe after its progress signal. *)
Definition one_worker_pending (q : list signal) : Prop :=
  exists t, is_terminal t = true /\ (q = [t] \/ exists m, q = [progress m; t]).

Definition invariant (g : gui) : Prop :=
  (queue g = [] /\ idle (window g))
  \/ (one_worker_pending (queue g) /\ busy (window g)).

End pyside6.

(** ** Further views and example worlds *)

Section more_views.

Context {lib : PyPDF2}.

(** The calls that read the inputs [paths] when each of them opens. *)
Definition read_calls (paths : list string) : list event :=
  flat_map (fun p => [EvOpenRead p; EvPdfReader p]) paths.

(** The lines the loop prints for inputs that are all read: for the input
    at index [i] of [n], "Processing file i+1/n", and the warning when it
    has no pages. *)
Fixpoint progress_lines (n i : nat) (paths : list string) (pss : list (list page))
  : list message :=
  match paths, pss with
  | p :: paths', ps :: pss' =>
      MsgProcessing (i + 1) n (posixpath.basename p)
        :: (if Nat.eqb (length ps) 0 then [MsgWarnEmpty (posixpath.basename p)] else [])
        ++ progress_lines n (S i) paths' pss'
  | _, _ => []
  end.

Definition is_makedirs (ev : event) : bool :=
  match ev with EvMakedirs _ => true | _ => false end.

(** Nothing that was there is gone: what was a file in [f] is a file in
    [f'], what was a directory is a directory. *)
Definition kinds_kept (f f' : gmap string node) : Prop :=
  forall k,
    (os.path_isfile f k = true -> os.path_isfile f' k = true)
    /\ (os.path_isdir f k = true -> os.path_isdir f' k = true).

End more_views.

Module ToyMore.

(** The directory of [Toy.docs] with a file that may not be read and a
    directory that may not be written. *)
Definition guarded : gmap string node :=
  <["locked.pdf" := File false true [x50; x07]]>
    (<["vault" := Dir false]> Toy.docs).

Definition guarded_world : world := Toy.world_of guarded 100.

(** A window on which two inputs and an output have been selected. *)
Definition selected : pyside6.MainWindow :=
  pyside6.select_output_pdf (Some ["merged/out.pdf"])
    (pyside6.select_input_pdfs (Some ["a.pdf"; "b.pdf"]) pyside6.init).

(** Two directories that each hold a file named a.pdf: in the first world
    the one under x is encrypted, in the second the one under y. *)
Definition twins (in_x in_y : list byte) : gmap string node :=
  <["x" := Dir true]>
    (<["y" := Dir true]>
       (<["x/a.pdf" := File true true in_x]>
          (<["y/a.pdf" := File true true in_y]> ∅))).

Definition bad_in_x : world := Toy.world_of (twins [x45] [x50; x01]) 100.
Definition bad_in_y : world := Toy.world_of (twins [x50; x01] [x45]) 100.

End ToyMore.

(** * Properties *)

(** ** The validation of the argument *)

Lemma isinstance_str_fmap (paths : list string) :
  forallb isinstance_str (PyStr <$> paths) = true.
Proof. induction paths as [|p paths IH]; simpl; auto. Qed.

Lemma str_items_fmap (paths : list string) :
  str_items (PyList (PyStr <$> paths)) = paths.
Proof.
  unfold str_items; simpl.
  induction paths as [|p paths IH]; simpl; [reflexivity|].
  f_equal. exact IH.
Qed.

(** ** The phases, run in any world *)

(** Unfolds the operations of the monad and the updates of the world. *)
Ltac run_monad :=
  unfold bind, ret, raise, try_except, print, log,
    add_event, add_stdout, set_fs, set_disk_free;
  cbn [fs disk_free stdout trace fst snd].

Section phases.

Context {lib : PyPDF2}.

Lemma for_each_check_input (paths : list string) (w : world) :
  for_each check_input paths w
  = (check_all (fs w) paths,
     World (fs w) (disk_free w) (stdout w) (trace w ++ check_events (fs w) paths)).
Proof.
  revert w. induction paths as [|p rest IH]; intros [f d o t]; simpl.
  - unfold ret. now rewrite app_nil_r.
  - unfold check_input, os_path_exists, os_path_isfile. run_monad.
    destruct (os.path_exists f p); simpl; [|reflexivity].
    destruct (os.path_isfile f p); simpl.
    + rewrite IH; simpl. now rewrite <- !app_assoc.
    + now rewrite <- !app_assoc.
Qed.

(** The inner [for page_num in range(len(pdf_reader.pages))] loop appends
    the pages of the reader, in order. *)
Lemma add_pages_in_order (ps : list page) (done_ : list page) (wr : PdfWriter) k :
  k = length done_ ->
  foldl (fun wr page_num =>
           match (done_ ++ ps) !! page_num with
           | Some pg => add_page wr pg
           | None => wr
           end) wr (seq k (length ps))
  = {| pages := pages wr ++ ps |}.
Proof.
  revert done_ wr k. induction ps as [|pg ps IH]; intros done_ wr k ->; simpl.
  - rewrite app_nil_r. now destruct wr.
  - rewrite list_lookup_middle by reflexivity.
    replace (done_ ++ pg :: ps) with ((done_ ++ [pg]) ++ ps)
      by now rewrite <- app_assoc.
    rewrite (IH (done_ ++ [pg])) by (rewrite length_app; simpl; lia).
    unfold add_page; simpl. now rewrite <- app_assoc.
Qed.

Lemma process_file_run (n i : nat) (p : string) (wr : PdfWriter) (w : world) :
  process_file n i p wr w
  = (match read_pdf (fs w) p with
     | inl e => inl (reraise_read_error p e)
     | inr ps => inr {| pages := pages wr ++ ps |}
     end,
     World (fs w) (disk_free w)
           (stdout w ++ file_msgs (fs w) n i p)
           (trace w ++ file_events (fs w) p)).
Proof.
  destruct w as [f d o t].
  unfold process_file, read_into, open_rb, call_PdfReader,
    file_msgs, file_events, read_pdf. run_monad.
  destruct (os.open_rb f p) as [e|data]; simpl; [reflexivity|].
  destruct (PdfReader data) as [e|ps]; simpl.
  - now rewrite <- !app_assoc.
  - destruct ps as [|pg ps].
    + simpl. rewrite app_nil_r, <- !app_assoc. now destruct wr.
    + change (Nat.eqb (length (pg :: ps)) 0) with false. cbv iota.
      pose proof (add_pages_in_order (pg :: ps) [] wr 0 eq_refl) as Hfold.
      rewrite app_nil_l in Hfold. rewrite Hfold.
      now rewrite <- !app_assoc.
Qed.

Lemma process_inputs_run (n i : nat) (paths : list string) (wr : PdfWriter) (w : world) :
  process_inputs n i paths wr w
  = (match read_all (fs w) paths (pages wr) with
     | inl e => inl e
     | inr ps => inr {| pages := ps |}
     end,
     World (fs w) (disk_free w)
           (stdout w ++ loop_msgs (fs w) n i paths)
           (trace w ++ loop_events (fs w) paths)).
Proof.
  revert i wr w. induction paths as [|p rest IH]; intros i wr [f d o t].
  - simpl. unfold ret. rewrite !app_nil_r. now destruct wr.
  - cbn [process_inputs read_all loop_msgs loop_events].
    unfold bind. rewrite process_file_run. cbn [fs disk_free stdout trace].
    destruct (read_pdf f p) as [e|ps].
    + now rewrite !app_nil_r.
    + rewrite IH. cbn [fs disk_free stdout trace pages].
      now rewrite <- !app_assoc.
Qed.

End phases.

(** ** Paths and the operating system *)

Lemma cut_last_sep_length (p h t : string) :
  posixpath.cut_last_sep p = Some (h, t) ->
  String.length h + String.length t = String.length p.
Proof.
  revert h t. induction p as [|c r IH]; intros h t; simpl; [discriminate|].
  destruct (posixpath.cut_last_sep r) as [[h' t']|].
  - intros [= <- <-]. simpl. now rewrite (IH h' t' eq_refl).
  - destruct (posixpath.is_sep c); [|discriminate].
    intros [= <- <-]. reflexivity.
Qed.

Lemma rstrip_sep_length (s : string) :
  String.length (posixpath.rstrip_sep s) <= String.length s.
Proof.
  induction s as [|c r IH]; simpl; [lia|].
  destruct (posixpath.is_sep c && String.eqb (posixpath.rstrip_sep r) ""); simpl; lia.
Qed.

Lemma split_length (p h t : string) :
  posixpath.split p = (h, t) ->
  String.length h + String.length t <= String.length p.
Proof.
  unfold posixpath.split.
  destruct (posixpath.cut_last_sep p) as [[h0 t0]|] eqn:Hcut.
  - apply cut_last_sep_length in Hcut.
    destruct (negb (String.eqb h0 "") && negb (posixpath.only_seps h0));
      intros [= <- <-]; [pose proof (rstrip_sep_length h0)|]; lia.
  - simpl. intros [= <- <-]. simpl. lia.
Qed.

Lemma string_eqb_empty_length (s : string) :
  String.eqb s "" = false -> 0 < String.length s.
Proof. destruct s; simpl; [discriminate|lia]. Qed.

(** The path [os.makedirs] recurses on is strictly shorter. *)
Lemma makedirs_head_shorter (name h t h' t' : string) :
  posixpath.split name = (h, t) ->
  (if String.eqb t "" then posixpath.split h else (h, t)) = (h', t') ->
  String.eqb t' "" = false ->
  String.length h' < String.length name.
Proof.
  intros Hs Hs' Ht'. apply split_length in Hs.
  apply string_eqb_empty_length in Ht'.
  destruct (String.eqb t "").
  - apply split_length in Hs'. lia.
  - injection Hs' as <- <-. lia.
Qed.

(** The fuel [os.makedirs] is given is enough: more fuel changes nothing. *)
Lemma makedirs_rec_fuel (fuel1 fuel2 : nat) (f : gmap string node) (name : string) :
  String.length name < fuel1 -> String.length name < fuel2 ->
  os.makedirs_rec fuel1 f name = os.makedirs_rec fuel2 f name.
Proof.
  revert fuel2 f name.
  induction fuel1 as [|fuel1 IH]; intros [|fuel2] f name H1 H2; try lia.
  simpl.
  destruct (posixpath.split name) as [h t] eqn:Hs.
  destruct (if String.eqb t "" then posixpath.split h else (h, t)) as [h' t'] eqn:Hs'.
  destruct (String.eqb t' "") eqn:Ht'.
  - now rewrite andb_false_r.
  - pose proof (makedirs_head_shorter _ _ _ _ _ Hs Hs' Ht') as Hlt.
    destruct (negb (String.eqb h' "") && negb false && negb (os.path_exists f h'));
      [|reflexivity].
    rewrite (IH fuel2 f h') by lia. reflexivity.
Qed.

Lemma stat_lookup (f : gmap string node) (p : string) :
  p <> "" -> os.stat f p = f !! p.
Proof.
  intros Hp. unfold os.stat.
  destruct (String.eqb p "") eqn:E; [|reflexivity].
  apply String.eqb_eq in E. contradiction.
Qed.

Lemma stat_Some (f : gmap string node) (p : string) (nd : node) :
  os.stat f p = Some nd -> p <> "" /\ f !! p = Some nd.
Proof.
  unfold os.stat. destruct (String.eqb p "") eqn:E; [discriminate|].
  apply String.eqb_neq in E. auto.
Qed.

Lemma create_entry_nonempty (f : gmap string node) (p : string) :
  os.create_entry f p = inr tt -> p <> "".
Proof.
  unfold os.create_entry. destruct (String.eqb p "") eqn:E; [discriminate|].
  apply String.eqb_neq in E. auto.
Qed.

Lemma mkdir_ok (f f' : gmap string node) (p : string) :
  os.mkdir f p = inr f' ->
  p <> "" /\ f !! p = None /\ f' = <[p := Dir true]> f.
Proof.
  unfold os.mkdir. destruct (os.stat f p) eqn:Hst; [discriminate|].
  destruct (os.create_entry f p) as [e|[]] eqn:Hc; [discriminate|].
  intros [= <-]. apply create_entry_nonempty in Hc.
  rewrite stat_lookup in Hst by assumption. auto.
Qed.

Lemma create_entry_OSError (f : gmap string node) (p : string) (e : exn) :
  os.create_entry f p = inl e -> is_OSError (exn_cls e) = true.
Proof.
  unfold os.create_entry.
  destruct (String.eqb p ""); [now intros [= <-]|].
  destruct (String.eqb (posixpath.dirname p) ""); [discriminate|].
  destruct (os.stat f (posixpath.dirname p)) as [[? ? ?|[]]|]; try discriminate;
    now intros [= <-].
Qed.

Lemma mkdir_OSError (f : gmap string node) (p : string) (e : exn) :
  os.mkdir f p = inl e -> is_OSError (exn_cls e) = true.
Proof.
  unfold os.mkdir. destruct (os.stat f p); [now intros [= <-]|].
  destruct (os.create_entry f p) as [e'|[]] eqn:Hc; [|discriminate].
  intros [= <-]. eapply create_entry_OSError; eauto.
Qed.

Lemma open_wb_OSError (f : gmap string node) (p : string) (e : exn) :
  os.open_wb f p = inl e -> is_OSError (exn_cls e) = true.
Proof.
  unfold os.open_wb.
  destruct (os.stat f p) as [[? [] ?|?]|]; try discriminate; try now intros [= <-].
  destruct (String.eqb (posixpath.basename p) "" && negb (String.eqb p ""));
    [now intros [= <-]|].
  destruct (os.create_entry f p) as [e'|[]] eqn:Hc; [|discriminate].
  intros [= <-]. eapply create_entry_OSError; eauto.
Qed.

(** A successful [open(p, 'wb')] leaves an empty writable file at [p] and
    changes nothing else. *)
Lemma open_wb_ok (f f' : gmap string node) (p : string) :
  os.open_wb f p = inr f' ->
  p <> "" /\ exists r, f' = <[p := File r true []]> f
                       /\ (f !! p = None \/ exists data, f !! p = Some (File r true data)).
Proof.
  unfold os.open_wb. destruct (os.stat f p) as [[r [] data|?]|] eqn:Hst; try discriminate.
  - apply stat_Some in Hst as [Hp Hl]. intros [= <-]. split; [assumption|].
    exists r. eauto.
  - destruct (String.eqb (posixpath.basename p) "" && negb (String.eqb p ""));
      [discriminate|].
    destruct (os.create_entry f p) as [e'|[]] eqn:Hc; [discriminate|].
    intros [= <-]. apply create_entry_nonempty in Hc.
    rewrite stat_lookup in Hst by assumption. split; [assumption|].
    exists true. auto.
Qed.

Lemma store_insert (f : gmap string node) (p : string) (r wr : bool) (d0 data : list byte) :
  store p data (<[p := File r wr d0]> f) = <[p := File r wr data]> f.
Proof. unfold store. rewrite lookup_insert_eq. apply insert_insert_eq. Qed.

(** [os.makedirs] only ever adds directories at paths that were free. *)
Lemma makedirs_rec_frame (fuel : nat) (f f' : gmap string node) (name : string) err :
  os.makedirs_rec fuel f name = (err, f') ->
  forall k, f' !! k = f !! k \/ (f !! k = None /\ f' !! k = Some (Dir true)).
Proof.
  revert f f' name err. induction fuel as [|fuel IH]; intros f f' name err; simpl.
  - intros [= <- <-]. auto.
  - destruct (posixpath.split name) as [h t].
    destruct (if String.eqb t "" then posixpath.split h else (h, t)) as [h' t'].
    assert (Hleaf : forall f1 : gmap string node,
               (forall k, f1 !! k = f !! k \/ (f !! k = None /\ f1 !! k = Some (Dir true))) ->
               match os.mkdir f1 name with
               | inl e => (Some e, f1)
               | inr f2 => (None, f2)
               end = (err, f') ->
               forall k, f' !! k = f !! k \/ (f !! k = None /\ f' !! k = Some (Dir true))).
    { intros f1 Hf1. destruct (os.mkdir f1 name) as [e|f2] eqn:Hmk.
      - intros [= <- <-]. exact Hf1.
      - intros [= <- <-] k. apply mkdir_ok in Hmk as (Hn & Hfree & ->).
        destruct (decide (name = k)) as [->|Hne].
        + rewrite lookup_insert_eq. right. split; [|reflexivity].
          destruct (Hf1 k) as [Heq|[Hnone _]]; congruence.
        + rewrite lookup_insert_ne by assumption. apply Hf1. }
    destruct (negb (String.eqb h' "") && negb (String.eqb t' "")
              && negb (os.path_exists f h')).
    + destruct (os.makedirs_rec fuel f h') as [[e|] f1] eqn:Hrec.
      * pose proof (IH _ _ _ _ Hrec) as Hf1.
        destruct (exn_cls e); try (intros [= <- <-]; exact Hf1); now apply Hleaf.
      * apply Hleaf. eapply IH; eauto.
    + apply Hleaf. auto.
Qed.

(** When [os.makedirs] returns, the directory is there. *)
Lemma makedirs_rec_ok (fuel : nat) (f f' : gmap string node) (name : string) :
  os.makedirs_rec fuel f name = (None, f') ->
  name <> "" /\ f' !! name = Some (Dir true).
Proof.
  destruct fuel as [|fuel]; simpl; [discriminate|].
  destruct (posixpath.split name) as [h t].
  destruct (if String.eqb t "" then posixpath.split h else (h, t)) as [h' t'].
  assert (Hleaf : forall f1 : gmap string node,
             match os.mkdir f1 name with
             | inl e => (Some e, f1)
             | inr f2 => (None, f2)
             end = (None, f') ->
             name <> "" /\ f' !! name = Some (Dir true)).
  { intros f1. destruct (os.mkdir f1 name) as [e|f2] eqn:Hmk; [discriminate|].
    intros [= <-]. apply mkdir_ok in Hmk as (Hn & _ & ->).
    now rewrite lookup_insert_eq. }
  destruct (negb (String.eqb h' "") && negb (String.eqb t' "")
            && negb (os.path_exists f h')).
  - destruct (os.makedirs_rec fuel f h') as [[e|] f1].
    + destruct (exn_cls e); try discriminate. apply Hleaf.
    + apply Hleaf.
  - apply Hleaf.
Qed.

(** Whatever [os.makedirs] raises is an [OSError]. *)
Lemma makedirs_rec_OSError (fuel : nat) (f f' : gmap string node) (name : string) (e : exn) :
  os.makedirs_rec fuel f name = (Some e, f') -> is_OSError (exn_cls e) = true.
Proof.
  revert f f' name e. induction fuel as [|fuel IH]; intros f f' name e; simpl.
  - now intros [= <- <-].
  - destruct (posixpath.split name) as [h t].
    destruct (if String.eqb t "" then posixpath.split h else (h, t)) as [h' t'].
    assert (Hleaf : forall f1 : gmap string node,
               match os.mkdir f1 name with
               | inl e => (Some e, f1)
               | inr f2 => (None, f2)
               end = (Some e, f') -> is_OSError (exn_cls e) = true).
    { intros f1. destruct (os.mkdir f1 name) as [e'|f2] eqn:Hmk; [|discriminate].
      intros [= <- <-]. eapply mkdir_OSError; eauto. }
    destruct (negb (String.eqb h' "") && negb (String.eqb t' "")
              && negb (os.path_exists f h')).
    + destruct (os.makedirs_rec fuel f h') as [[e'|] f1] eqn:Hrec.
      * pose proof (IH _ _ _ _ Hrec) as He'.
        destruct (exn_cls e') eqn:Hcls; try discriminate;
          try (intros [= <- <-]; now rewrite Hcls); apply Hleaf.
      * apply Hleaf.
    + apply Hleaf.
Qed.

(** ** The output phase and the whole run *)

Section runs.

Context {lib : PyPDF2}.

Lemma write_output_run (out : string) (wr : PdfWriter) (w : world) :
  write_output out wr w
  = match os.open_wb (fs w) out with
    | inl e =>
        (inl e, World (fs w) (disk_free w) (stdout w) (trace w ++ [EvOpenWrite out]))
    | inr f' =>
        let data := serialize (pages wr) in
        if Nat.leb (length data) (disk_free w) then
          (inr tt,
           World (store out data f') (disk_free w - length data) (stdout w)
                 (trace w ++ [EvOpenWrite out; EvWrite out (length data)]))
        else
          (inl (Exn OSError "[Errno 28] No space left on device"),
           World (store out (take (disk_free w) data) f') 0 (stdout w)
                 (trace w ++ [EvOpenWrite out; EvWrite out (length data)]))
    end.
Proof.
  destruct w as [f d o t]. unfold write_output, open_wb, write_close. run_monad.
  destruct (os.open_wb f out) as [e|f']; [reflexivity|].
  cbn [fs disk_free stdout trace]. cbn zeta.
  destruct (Nat.leb (length (serialize (pages wr))) d); now rewrite <- !app_assoc.
Qed.

Lemma ensure_output_dir_run (out : string) (w : world) :
  ensure_output_dir out w
  = let d := posixpath.dirname out in
    if String.eqb d "" then (inr tt, w)
    else if os.path_exists (fs w) d then
      (inr tt, World (fs w) (disk_free w) (stdout w) (trace w ++ [EvExists d]))
    else
      match os.makedirs (fs w) d with
      | (Some e, f') =>
          (inl (makedirs_error d e),
           World f' (disk_free w) (stdout w) (trace w ++ [EvExists d; EvMakedirs d]))
      | (None, f') =>
          (inr tt,
           World f' (disk_free w) (stdout w ++ [MsgCreatedDir d])
                 (trace w ++ [EvExists d; EvMakedirs d]))
      end.
Proof.
  destruct w as [f dk o t]. unfold ensure_output_dir. cbn zeta.
  destruct (String.eqb (posixpath.dirname out) ""); [reflexivity|].
  unfold os_path_exists, os_makedirs. run_monad.
  destruct (os.path_exists f (posixpath.dirname out)); simpl; [reflexivity|].
  destruct (os.makedirs f (posixpath.dirname out)) as [[e|] f'] eqn:Hmk; simpl.
  - unfold os.makedirs in Hmk. apply makedirs_rec_OSError in Hmk. rewrite Hmk.
    unfold makedirs_error. now rewrite <- !app_assoc.
  - now rewrite <- !app_assoc.
Qed.

(** The run of [merge_pdfs] on a non-empty list of strings, phase by
    phase. *)
Lemma merge_pdfs_run (paths : list string) (out : string) (w : world) :
  paths <> [] ->
  merge_pdfs (PyList (PyStr <$> paths)) out w
  = match check_all (fs w) paths with
    | inl e =>
        (inl e, World (fs w) (disk_free w) (stdout w)
                      (trace w ++ check_events (fs w) paths))
    | inr _ =>
        match read_all (fs w) paths [] with
        | inl e => report_and_reraise e (after_reads paths out w)
        | inr ps =>
            try_except (finish (length paths) out {| pages := ps |})
                       report_and_reraise (after_reads paths out w)
        end
    end.
Proof.
  intros Hne. unfold merge_pdfs.
  replace (negb (isinstance_list (PyList (PyStr <$> paths)))
           || negb (truthy (PyList (PyStr <$> paths)))) with false
    by (destruct paths; [contradiction|reflexivity]).
  cbn [items]. rewrite isinstance_str_fmap, str_items_fmap. cbn [negb].
  cbv zeta. unfold bind at 1. rewrite for_each_check_input.
  destruct (check_all (fs w) paths) as [e|[]]; [reflexivity|].
  destruct w as [f d o t]. unfold after_reads. run_monad.
  rewrite process_inputs_run. cbn [fs disk_free stdout trace pages].
  rewrite <- !app_assoc. cbn [app].
  destruct (read_all f paths []) as [e|ps]; reflexivity.
Qed.

End runs.

(** ** Facts about the views *)

Section view_facts.

Context {lib : PyPDF2}.

Lemma read_pdf_regular (f : gmap string node) (p : string) (ps : list page) :
  read_pdf f p = inr ps -> is_regular f p = true.
Proof.
  unfold read_pdf, os.open_rb, is_regular, os.path_exists, os.path_isfile.
  destruct (os.stat f p) as [[[] ? ?|?]|]; simpl; (discriminate || reflexivity).
Qed.

Lemma check_all_ok (f : gmap string node) (paths : list string) :
  Forall (fun p => is_regular f p = true) paths -> check_all f paths = inr tt.
Proof.
  induction 1 as [|p rest Hp _ IH]; simpl; [reflexivity|].
  unfold is_regular in Hp. apply andb_true_iff in Hp as [-> ->]. exact IH.
Qed.

Lemma all_read_regular (f : gmap string node) paths pss :
  all_read f paths pss -> Forall (fun p => is_regular f p = true) paths.
Proof.
  induction 1 as [|p ps rest pss' Hp _ IH]; constructor; eauto using read_pdf_regular.
Qed.

Lemma read_all_ok (f : gmap string node) paths pss (acc : list page) :
  all_read f paths pss -> read_all f paths acc = inr (acc ++ concat pss).
Proof.
  intros H. revert acc.
  induction H as [|p ps rest pss' Hp _ IH]; intros acc; simpl.
  - now rewrite app_nil_r.
  - rewrite Hp, IH. now rewrite <- app_assoc.
Qed.

(** The run stops at the first input that is missing or not a file. *)
Lemma check_all_first_bad (f : gmap string node) (before after : list string) (p : string) :
  Forall (fun q => is_regular f q = true) before ->
  is_regular f p = false ->
  check_all f (before ++ p :: after)
  = inl (Exn FileNotFoundError
           ((if os.path_exists f p then "Input path is not a file: "
             else "Input file not found: ") +:+ p)).
Proof.
  intros Hb Hp. induction Hb as [|q rest Hq _ IH]; simpl.
  - unfold is_regular in Hp.
    destruct (os.path_exists f p); simpl in *; [now rewrite Hp|reflexivity].
  - unfold is_regular in Hq. apply andb_true_iff in Hq as [-> ->]. exact IH.
Qed.

(** The loop stops at the first input whose reading raises. *)
Lemma read_all_first_bad (f : gmap string node) before pss after p e (acc : list page) :
  all_read f before pss ->
  read_pdf f p = inl e ->
  read_all f (before ++ p :: after) acc = inl (reraise_read_error p e).
Proof.
  intros Hb Hp. revert acc.
  induction Hb as [|q ps rest pss' Hq _ IH]; intros acc; simpl.
  - now rewrite Hp.
  - rewrite Hq. apply IH.
Qed.

Lemma check_events_are_checks (f : gmap string node) (paths : list string) :
  Forall (fun ev => is_check_event ev = true) (check_events f paths).
Proof.
  induction paths as [|p rest IH]; simpl; [constructor|].
  destruct (os.path_exists f p); simpl; [|repeat constructor].
  destruct (os.path_isfile f p); simpl; repeat constructor. exact IH.
Qed.

Lemma check_events_no_write (f : gmap string node) (paths : list string) :
  Forall (fun ev => is_write_event ev = false) (check_events f paths).
Proof.
  eapply Forall_impl; [apply check_events_are_checks|].
  intros [] ?; reflexivity || discriminate.
Qed.

Lemma loop_events_no_write (f : gmap string node) (paths : list string) :
  Forall (fun ev => is_write_event ev = false) (loop_events f paths).
Proof.
  induction paths as [|p rest IH]; simpl; [constructor|].
  apply Forall_app. split.
  - unfold file_events. destruct (os.open_rb f p); repeat constructor.
  - destruct (read_pdf f p); [constructor|exact IH].
Qed.

Lemma prefix_app (s t : string) : String.prefix s (s +:+ t) = true.
Proof.
  induction s as [|c s IH]; simpl; [now destruct t|].
  destruct (ascii_dec c c); [exact IH|contradiction].
Qed.

Lemma mentions_app (a s b : string) : mentions (a +:+ s +:+ b) s = true.
Proof.
  induction a as [|c a IH].
  - change (mentions (s +:+ b) s = true).
    pose proof (prefix_app s b) as Hp.
    destruct (s +:+ b); cbn [mentions]; now rewrite Hp.
  - change (mentions (String c (a +:+ s +:+ b)) s = true).
    cbn [mentions]. rewrite IH. apply orb_true_r.
Qed.

Lemma concat_non_empty_docs (pss : list (list page)) :
  concat (non_empty_docs pss) = concat pss.
Proof.
  induction pss as [|ps pss IH]; simpl; [reflexivity|].
  destruct ps as [|pg ps]; simpl; [exact IH|]. now rewrite IH.
Qed.

Lemma report_and_reraise_run (e : exn) (w : world) :
  exists m, @report_and_reraise unit e w = (inl e, add_stdout m w).
Proof.
  unfold report_and_reraise.
  destruct (is_known_error (exn_cls e)); eexists; reflexivity.
Qed.

End view_facts.

(** ** A run that succeeds *)

Section success.

Context {lib : PyPDF2}.

Lemma finish_ok (n : nat) (out : string) (ps : list page) (w : world) :
  destination_ready (fs w) out = true ->
  length (serialize ps) <= disk_free w ->
  exists r w',
    finish n out {| pages := ps |} w = (inr tt, w')
    /\ fs w' = <[out := File r true (serialize ps)]> (fs w)
    /\ stdout w' = stdout w
                     ++ (if Nat.eqb (length ps) 0 then [MsgNoPages] else [])
                     ++ [MsgSuccess n out].
Proof.
  intros Hready Hfits. unfold destination_ready in Hready.
  apply andb_true_iff in Hready as [Hdir Hopen].
  destruct (os.open_wb (fs w) out) as [e|f'] eqn:Ho; [discriminate|].
  pose proof (open_wb_ok _ _ _ Ho) as (_ & r & Hf' & _). subst f'.
  apply Nat.leb_le in Hfits.
  exists r. unfold finish, bind. cbn [pages].
  set (w0 := (if Nat.eqb (length ps) 0 then print MsgNoPages else ret tt) w).
  assert (Hw0 : w0 = (inr tt,
                      World (fs w) (disk_free w)
                            (stdout w ++ (if Nat.eqb (length ps) 0 then [MsgNoPages] else []))
                            (trace w))).
  { subst w0. destruct w as [f d o t]. destruct (Nat.eqb (length ps) 0); run_monad.
    - reflexivity.
    - now rewrite app_nil_r. }
  rewrite Hw0. rewrite ensure_output_dir_run. cbn [fs disk_free stdout trace]. cbv zeta.
  assert (Hprep : (if String.eqb (posixpath.dirname out) "" then true
                   else os.path_exists (fs w) (posixpath.dirname out)) = true)
    by (destruct (String.eqb (posixpath.dirname out) ""); [reflexivity|exact Hdir]).
  destruct (String.eqb (posixpath.dirname out) "");
    [|rewrite Hprep];
    rewrite write_output_run; cbn [fs disk_free stdout trace pages]; cbv zeta;
    rewrite Ho, Hfits, store_insert; run_monad;
    (eexists; split; [reflexivity|]; cbn [fs stdout]; split; [reflexivity|];
     now rewrite <- app_assoc).
Qed.

Lemma merge_pdfs_ok (paths : list string) (pss : list (list page)) (out : string)
    (w : world) :
  paths <> [] ->
  all_read (fs w) paths pss ->
  destination_ready (fs w) out = true ->
  length (serialize (concat pss)) <= disk_free w ->
  exists r w',
    merge_pdfs (PyList (PyStr <$> paths)) out w = (inr tt, w')
    /\ fs w' = <[out := File r true (serialize (concat pss))]> (fs w)
    /\ stdout w' = stdout (after_reads paths out w)
                     ++ (if Nat.eqb (length (concat pss)) 0 then [MsgNoPages] else [])
                     ++ [MsgSuccess (length paths) out].
Proof.
  intros Hne Hread Hready Hfits.
  rewrite merge_pdfs_run by assumption.
  rewrite (check_all_ok _ _ (all_read_regular _ _ _ Hread)).
  rewrite (read_all_ok _ _ _ [] Hread). rewrite app_nil_l.
  destruct (finish_ok (length paths) out (concat pss) (after_reads paths out w))
    as (r & w' & Hrun & Hfs & Hout); [assumption..|].
  exists r, w'. unfold try_except. rewrite Hrun. auto.
Qed.

(** Every input without pages has its warning printed. *)
Lemma loop_msgs_warn (f : gmap string node) (n i : nat) paths pss (p : string) :
  all_read f paths pss ->
  p ∈ paths ->
  read_pdf f p = inr [] ->
  MsgWarnEmpty (posixpath.basename p) ∈ loop_msgs f n i paths.
Proof.
  intros Hread. revert i.
  induction Hread as [|q ps rest pss' Hq _ IH]; intros i Hin Hp.
  - inversion Hin.
  - cbn [loop_msgs]. rewrite Hq. apply elem_of_app.
    apply elem_of_cons in Hin as [->|Hin].
    + left. unfold file_msgs. rewrite Hp. apply elem_of_cons. right.
      apply elem_of_cons. now left.
    + right. now apply IH.
Qed.

Lemma file_data_insert (f : gmap string node) (p : string) (r wr : bool)
    (data : list byte) :
  file_data (<[p := File r wr data]> f) p = Some data.
Proof. unfold file_data. now rewrite lookup_insert_eq. Qed.

End success.

(** ** The claims about a merge that goes through *)

Section merged_document.

Context {lib : PyPDF2}.

(** C1. For valid inputs A and B (files the reader reads, with pages [pa]
    and [pb]), merging [A, B] to a destination that can be written
    returns normally and leaves at [output_path] the document made of the
    pages of A in order followed by the pages of B in order; its page
    count is pageCount(A) + pageCount(B). *)
Theorem merge_two_in_order (a b out : string) (pa pb : list page) (w : world) :
  reads_back_what_it_writes ->
  read_pdf (fs w) a = inr pa ->
  read_pdf (fs w) b = inr pb ->
  destination_ready (fs w) out = true ->
  length (serialize (pa ++ pb)) <= disk_free w ->
  exists w' data,
    merge_pdfs (PyList [PyStr a; PyStr b]) out w = (inr tt, w')
    /\ file_data (fs w') out = Some data
    /\ data = serialize (pa ++ pb)
    /\ PdfReader data = inr (pa ++ pb)
    /\ page_count data = Some (length pa + length pb).
Proof.
  intros Hlib Ha Hb Hready Hfits.
  assert (Hread : all_read (fs w) [a; b] [pa; pb]) by (repeat constructor; assumption).
  destruct (merge_pdfs_ok [a; b] [pa; pb] out w) as (r & w' & Hrun & Hfs & _);
    [discriminate|assumption|assumption|simpl; now rewrite app_nil_r|].
  simpl in Hfs. rewrite app_nil_r in Hfs.
  exists w', (serialize (pa ++ pb)). split; [exact Hrun|].
  rewrite Hfs, file_data_insert. unfold page_count. rewrite Hlib, length_app. auto.
Qed.

(** C2. Merging the single valid input [A] (the function has no page
    selection: every page is taken) leaves a document with as many pages
    as A, whose pages have the content streams of the pages of A. *)
Theorem merge_single_round_trip (a out : string) (pa : list page) (w : world) :
  reads_back_what_it_writes ->
  read_pdf (fs w) a = inr pa ->
  destination_ready (fs w) out = true ->
  length (serialize pa) <= disk_free w ->
  exists w' data ps',
    merge_pdfs (PyList [PyStr a]) out w = (inr tt, w')
    /\ file_data (fs w') out = Some data
    /\ PdfReader data = inr ps'
    /\ length ps' = length pa
    /\ content_stream <$> ps' = content_stream <$> pa.
Proof.
  intros Hlib Ha Hready Hfits.
  assert (Hread : all_read (fs w) [a] [pa]) by (repeat constructor; assumption).
  destruct (merge_pdfs_ok [a] [pa] out w) as (r & w' & Hrun & Hfs & _);
    [discriminate|assumption|assumption|simpl; now rewrite app_nil_r|].
  simpl in Hfs. rewrite app_nil_r in Hfs.
  exists w', (serialize pa), pa. split; [exact Hrun|].
  rewrite Hfs, file_data_insert. auto.
Qed.

(** C8. In a list of inputs that are all read, an input [p] without pages
    is skipped: its warning is printed, no exception is raised, and the
    document written holds the pages of the inputs that have pages, in
    the order of the list. *)
Theorem empty_input_skipped (paths : list string) (pss : list (list page))
    (p out : string) (w : world) :
  all_read (fs w) paths pss ->
  p ∈ paths ->
  read_pdf (fs w) p = inr [] ->
  destination_ready (fs w) out = true ->
  length (serialize (concat (non_empty_docs pss))) <= disk_free w ->
  exists w',
    merge_pdfs (PyList (PyStr <$> paths)) out w = (inr tt, w')
    /\ MsgWarnEmpty (posixpath.basename p) ∈ stdout w'
    /\ file_data (fs w') out = Some (serialize (concat (non_empty_docs pss))).
Proof.
  intros Hread Hin Hp Hready Hfits. rewrite concat_non_empty_docs in *.
  destruct (merge_pdfs_ok paths pss out w) as (r & w' & Hrun & Hfs & Hout);
    [now destruct Hin|assumption..|].
  exists w'. split; [exact Hrun|]. split.
  - rewrite Hout. unfold after_reads. cbn [stdout].
    rewrite !elem_of_app. left. right. right.
    eapply loop_msgs_warn; eauto.
  - now rewrite Hfs, file_data_insert.
Qed.

End merged_document.

(** ** The claims about the validation *)

Section validation.

Context {lib : PyPDF2}.

(** C6. Merging the empty list raises [ValueError] and leaves the world
    as it was: no call was made (the trace is unchanged), so no input was
    opened and no output created, and nothing was printed. *)
Theorem empty_list_rejected (out : string) (w : world) :
  merge_pdfs (PyList []) out w
  = (inl (Exn ValueError "input_paths must be a non-empty list of file paths."), w).
Proof. reflexivity. Qed.

(** C9. An argument that is not a list, or a list with an element that is
    not a string, makes [merge_pdfs] raise [ValueError] in a world left as
    it was: no call to the file system was made. *)
Theorem ill_typed_argument_rejected (v : pyval) (out : string) (w : world) :
  isinstance_list v = false
  \/ (exists l x, v = PyList l /\ In x l /\ isinstance_str x = false) ->
  exists msg, merge_pdfs v out w = (inl (Exn ValueError msg), w).
Proof.
  intros [Hv|(l & x & -> & Hin & Hx)]; unfold merge_pdfs.
  - rewrite Hv. eexists. reflexivity.
  - destruct l as [|y l]; [destruct Hin|].
    change (negb (isinstance_list (PyList (y :: l)))
            || negb (truthy (PyList (y :: l)))) with false. cbv iota.
    cbn [items].
    assert (Hall : forallb isinstance_str (y :: l) = false).
    { apply not_true_is_false. intros Hall.
      rewrite forallb_forall in Hall. specialize (Hall x Hin). congruence. }
    rewrite Hall. eexists. reflexivity.
Qed.

Lemma first_irregular (f : gmap string node) (paths : list string) (p : string) :
  In p paths ->
  is_regular f p = false ->
  exists before q after,
    paths = before ++ q :: after
    /\ Forall (fun x => is_regular f x = true) before
    /\ is_regular f q = false.
Proof.
  induction paths as [|x rest IH]; intros Hin Hp; [destruct Hin|].
  destruct (is_regular f x) eqn:Hx.
  - destruct Hin as [->|Hin]; [congruence|].
    destruct (IH Hin Hp) as (before & q & after & -> & Hb & Hq).
    exists (x :: before), q, after. repeat split; auto.
  - exists [], x, rest. repeat split; auto.
Qed.

(** C7, as the code has it. If a path of the list does not exist, the
    merge raises [FileNotFoundError] after calls to [os.path.exists] and
    [os.path.isfile] only (no input is opened or parsed), with the file
    system untouched (no output is created) and nothing printed. The
    error names the first path [q] of the list that does not exist or is
    not a regular file. *)
Theorem missing_input_rejected (paths : list string) (p out : string) (w : world) :
  In p paths ->
  os.path_exists (fs w) p = false ->
  exists before q after w' evs,
    paths = before ++ q :: after
    /\ Forall (fun x => is_regular (fs w) x = true) before
    /\ is_regular (fs w) q = false
    /\ merge_pdfs (PyList (PyStr <$> paths)) out w
       = (inl (Exn FileNotFoundError
                 ((if os.path_exists (fs w) q then "Input path is not a file: "
                   else "Input file not found: ") +:+ q)), w')
    /\ fs w' = fs w /\ disk_free w' = disk_free w /\ stdout w' = stdout w
    /\ trace w' = trace w ++ evs
    /\ Forall (fun ev => is_check_event ev = true) evs.
Proof.
  intros Hin Hp.
  assert (Hirr : is_regular (fs w) p = false) by (unfold is_regular; now rewrite Hp).
  destruct (first_irregular _ _ _ Hin Hirr) as (before & q & after & -> & Hb & Hq).
  exists before, q, after. eexists. exists (check_events (fs w) (before ++ q :: after)).
  split; [reflexivity|]. split; [assumption|]. split; [assumption|].
  rewrite merge_pdfs_run by (now destruct before).
  rewrite (check_all_first_bad _ _ _ _ Hb Hq).
  split; [reflexivity|]. cbn [fs disk_free stdout trace].
  repeat split. apply check_events_are_checks.
Qed.

End validation.

(** ** The claims about failures *)

Section failures.

Context {lib : PyPDF2}.

Lemma first_unreadable (f : gmap string node) (paths : list string) (p : string) (e : exn) :
  In p paths ->
  read_pdf f p = inl e ->
  exists before pss q e' after,
    paths = before ++ q :: after
    /\ all_read f before pss
    /\ read_pdf f q = inl e'.
Proof.
  induction paths as [|x rest IH]; intros Hin Hp; [destruct Hin|].
  destruct (read_pdf f x) as [ex|ps] eqn:Hx.
  - exists [], [], x, ex, rest. repeat split; [constructor|assumption].
  - destruct Hin as [->|Hin]; [congruence|].
    destruct (IH Hin Hp) as (before & pss & q & e' & after & -> & Hb & Hq).
    exists (x :: before), (ps :: pss), q, e', after.
    repeat split; [constructor; assumption|assumption].
Qed.

Lemma reraise_read_error_mentions (p : string) (e : exn) :
  mentions (exn_msg (reraise_read_error p e)) (posixpath.basename p) = true.
Proof.
  unfold reraise_read_error.
  destruct (is_PdfReadError (exn_cls e)); cbn [exn_msg]; apply mentions_app.
Qed.

(** C5, as the code has it. When every input passes the existence check
    and the reading of some input fails, the merge raises the exception
    the inner handlers build for the first input [q] whose reading fails:
    a [PdfReadError] or an [Exception] whose message holds the base name
    of [q] ([os.path.basename], not the path: two inputs with the same
    file name in different directories are not told apart). The file
    system is left as it was and no call that could write was made: no
    output, partial or not, is written. *)
Theorem read_failure_aborts (paths : list string) (p out : string) (e : exn)
    (w : world) :
  Forall (fun x => is_regular (fs w) x = true) paths ->
  In p paths ->
  read_pdf (fs w) p = inl e ->
  exists before pss q e' after w' evs,
    paths = before ++ q :: after
    /\ all_read (fs w) before pss
    /\ read_pdf (fs w) q = inl e'
    /\ merge_pdfs (PyList (PyStr <$> paths)) out w = (inl (reraise_read_error q e'), w')
    /\ mentions (exn_msg (reraise_read_error q e')) (posixpath.basename q) = true
    /\ fs w' = fs w /\ disk_free w' = disk_free w
    /\ trace w' = trace w ++ evs
    /\ Forall (fun ev => is_write_event ev = false) evs.
Proof.
  intros Hreg Hin Hp.
  destruct (first_unreadable _ _ _ _ Hin Hp)
    as (before & pss & q & e' & after & -> & Hb & Hq).
  exists before, pss, q, e', after.
  rewrite merge_pdfs_run by (now destruct before).
  rewrite (check_all_ok _ _ Hreg).
  rewrite (read_all_first_bad _ _ _ _ _ _ [] Hb Hq).
  destruct (report_and_reraise_run (reraise_read_error q e')
              (after_reads (before ++ q :: after) out w)) as [m ->].
  eexists.
  exists (check_events (fs w) (before ++ q :: after)
            ++ loop_events (fs w) (before ++ q :: after)).
  repeat split; try assumption.
  - apply reraise_read_error_mentions.
  - apply Forall_app. split; [apply check_events_no_write|apply loop_events_no_write].
Qed.

Lemma all_read_empty (f : gmap string node) (paths : list string) :
  Forall (fun p => read_pdf f p = inr []) paths ->
  all_read f paths (replicate (length paths) []).
Proof. induction 1; simpl; constructor; assumption. Qed.

Lemma concat_replicate_nil (n : nat) : concat (replicate n (@nil page)) = [].
Proof. induction n; simpl; auto. Qed.

(** C3, as the code has it. When no page was appended over the whole
    merge (every input was read and none has pages), [merge_pdfs] prints
    its notice that no pages were added and goes on: with a destination
    that can be written it returns normally, having written the document
    without pages. It raises no error, and has no parameter to ask for
    one. *)
Theorem empty_merge_still_written (paths : list string) (out : string) (w : world) :
  paths <> [] ->
  Forall (fun p => read_pdf (fs w) p = inr []) paths ->
  destination_ready (fs w) out = true ->
  length (serialize []) <= disk_free w ->
  exists w',
    merge_pdfs (PyList (PyStr <$> paths)) out w = (inr tt, w')
    /\ MsgNoPages ∈ stdout w'
    /\ file_data (fs w') out = Some (serialize []).
Proof.
  intros Hne Hempty Hready Hfits.
  pose proof (all_read_empty _ _ Hempty) as Hread.
  destruct (merge_pdfs_ok paths _ out w Hne Hread Hready) as (r & w' & Hrun & Hfs & Hout).
  { now rewrite concat_replicate_nil. }
  rewrite concat_replicate_nil in *.
  exists w'. split; [exact Hrun|]. split.
  - rewrite Hout. cbn [length Nat.eqb]. rewrite !elem_of_app. right. left.
    apply elem_of_cons. now left.
  - now rewrite Hfs, file_data_insert.
Qed.

End failures.

(** ** The claims about the output phase *)

Section output_phase.

Context {lib : PyPDF2}.

Lemma makedirs_file_data (f f' : gmap string node) (d out : string) err :
  os.makedirs f d = (err, f') -> file_data f' out = file_data f out.
Proof.
  intros Hmk. unfold file_data.
  destruct (makedirs_rec_frame _ _ _ _ _ Hmk out) as [->|[-> ->]]; reflexivity.
Qed.

(** The directory step opens no file and leaves the bytes of every file
    as they were. *)
Lemma ensure_output_dir_cases (out : string) (w : world) :
  exists r w' evs,
    ensure_output_dir out w = (r, w')
    /\ trace w' = trace w ++ evs
    /\ (forall p, EvOpenWrite p ∈ evs -> p = out)
    /\ disk_free w' = disk_free w
    /\ file_data (fs w') out = file_data (fs w) out.
Proof.
  rewrite ensure_output_dir_run. cbv zeta.
  destruct (String.eqb (posixpath.dirname out) "").
  - exists (inr tt), w, []. rewrite app_nil_r. repeat split; auto.
    intros p Hp. inversion Hp.
  - destruct (os.path_exists (fs w) (posixpath.dirname out)).
    + eexists _, _, _. split; [reflexivity|]. cbn [fs disk_free trace].
      repeat split; auto.
      intros p Hp. apply elem_of_cons in Hp as [Hp|Hp]; [discriminate|inversion Hp].
    + destruct (os.makedirs (fs w) (posixpath.dirname out)) as [[e|] f'] eqn:Hmk;
        (eexists _, _, _; split; [reflexivity|]; cbn [fs disk_free trace];
         repeat split; eauto using makedirs_file_data;
         intros p Hp; repeat (apply elem_of_cons in Hp as [Hp|Hp]; [discriminate|]);
         inversion Hp).
Qed.

(** The write step opens the destination itself. When it raises, either
    the open failed and the file system is as it was, or the disk filled
    up and the destination holds the bytes that fitted. *)
Lemma write_output_cases (out : string) (wr : PdfWriter) (w : world) :
  exists r w' evs,
    write_output out wr w = (r, w')
    /\ trace w' = trace w ++ evs
    /\ (forall p, EvOpenWrite p ∈ evs -> p = out)
    /\ (forall e, r = inl e ->
          fs w' = fs w
          \/ (disk_free w < length (serialize (pages wr))
              /\ file_data (fs w') out
                 = Some (take (disk_free w) (serialize (pages wr))))).
Proof.
  rewrite write_output_run.
  assert (Hev : forall (p : string) evs',
             Forall (fun ev => match ev with EvOpenWrite _ => False | _ => True end) evs' ->
             EvOpenWrite p ∈ EvOpenWrite out :: evs' -> p = out).
  { intros p evs' Hevs Hp. apply elem_of_cons in Hp as [[= ->]|Hp]; [reflexivity|].
    rewrite Forall_forall in Hevs. destruct (Hevs _ Hp). }
  destruct (os.open_wb (fs w) out) as [e|f'] eqn:Ho.
  - eexists _, _, _. split; [reflexivity|]. cbn [fs trace].
    split; [reflexivity|]. split; [|auto].
    intros p. apply Hev. constructor.
  - cbv zeta. apply open_wb_ok in Ho as (_ & r & -> & _).
    destruct (Nat.leb (length (serialize (pages wr))) (disk_free w)) eqn:Hfit;
      (eexists _, _, _; split; [reflexivity|]; cbn [fs trace];
       split; [reflexivity|]; split;
       [intros p; apply Hev; repeat constructor|]).
    + discriminate.
    + intros e _. right. apply Nat.leb_gt in Hfit. split; [assumption|].
      now rewrite store_insert, file_data_insert.
Qed.

Lemma finish_cases (n : nat) (out : string) (wr : PdfWriter) (w : world) :
  exists r w' evs,
    finish n out wr w = (r, w')
    /\ trace w' = trace w ++ evs
    /\ (forall p, EvOpenWrite p ∈ evs -> p = out)
    /\ (forall e, r = inl e ->
          file_data (fs w') out = file_data (fs w) out
          \/ (disk_free w < length (serialize (pages wr))
              /\ file_data (fs w') out
                 = Some (take (disk_free w) (serialize (pages wr))))).
Proof.
  unfold finish, bind.
  set (w0 := (if Nat.eqb (length (pages wr)) 0 then print MsgNoPages else ret tt) w).
  assert (Hw0 : exists o, w0 = (inr tt, World (fs w) (disk_free w) o (trace w))).
  { subst w0. destruct w as [f d o t].
    destruct (Nat.eqb (length (pages wr)) 0); eexists; reflexivity. }
  destruct Hw0 as [o ->].
  destruct (ensure_output_dir_cases out (World (fs w) (disk_free w) o (trace w)))
    as (r1 & w1 & evs1 & -> & Ht1 & Hev1 & Hd1 & Hf1).
  cbn [fs disk_free trace] in *.
  destruct r1 as [e1|[]].
  - exists (inl e1), w1, evs1. repeat split; auto.
  - destruct (write_output_cases out wr w1) as (r2 & w2 & evs2 & -> & Ht2 & Hev2 & Hf2).
    rewrite Hd1 in Hf2.
    destruct r2 as [e2|[]].
    + exists (inl e2), w2, (evs1 ++ evs2).
      split; [reflexivity|]. split; [now rewrite Ht2, Ht1, app_assoc|]. split.
      * intros p Hp. apply elem_of_app in Hp as [Hp|Hp]; auto.
      * intros e _. destruct (Hf2 e2 eq_refl) as [Hsame|Htrunc]; [left|right; assumption].
        now rewrite Hsame.
    + eexists (inr tt), _, (evs1 ++ evs2).
      split; [reflexivity|]. run_monad.
      split; [now rewrite Ht2, Ht1, app_assoc|]. split.
      * intros p Hp. apply elem_of_app in Hp as [Hp|Hp]; auto.
      * discriminate.
Qed.

End output_phase.

Section write_errors.

Context {lib : PyPDF2}.

(** The outer handlers only print: the result, the file system and the
    trace are those of the body. *)
Lemma try_report_run (c : M unit) (w : world) :
  exists o,
    try_except c report_and_reraise w
    = (fst (c w), World (fs (snd (c w))) (disk_free (snd (c w))) o (trace (snd (c w))))
    /\ (forall m, m ∈ stdout (snd (c w)) -> m ∈ o).
Proof.
  unfold try_except. destruct (c w) as [[e|[]] [f d o t]]; cbn [fst snd fs disk_free trace stdout].
  - destruct (report_and_reraise_run e (World f d o t)) as [m ->].
    eexists. split; [reflexivity|]. intros m' Hm'. apply elem_of_app. now left.
  - exists o. auto.
Qed.

Lemma read_all_inv (f : gmap string node) (paths : list string) (acc ps : list page) :
  read_all f paths acc = inr ps -> exists pss, all_read f paths pss.
Proof.
  revert acc. induction paths as [|p rest IH]; intros acc; simpl.
  - exists []. constructor.
  - destruct (read_pdf f p) as [e|ps0] eqn:Hp; [discriminate|].
    intros Hrest. destruct (IH _ Hrest) as [pss Hpss].
    exists (ps0 :: pss). constructor; assumption.
Qed.

Lemma no_write_event_no_open (evs : list event) (p : string) :
  Forall (fun ev => is_write_event ev = false) evs -> EvOpenWrite p ∈ evs -> False.
Proof.
  intros Hevs Hp. rewrite Forall_forall in Hevs. specialize (Hevs _ Hp). discriminate.
Qed.

Lemma no_write_event_not_exists (evs : list event) :
  Forall (fun ev => is_write_event ev = false) evs ->
  Exists (fun ev => is_write_event ev = true) evs -> False.
Proof.
  intros Hall Hex. apply Exists_exists in Hex as (ev & Hin & Hev).
  rewrite Forall_forall in Hall. specialize (Hall _ Hin). congruence.
Qed.

(** C4, as the code has it. Whatever the list of input paths, the only
    file [merge_pdfs] opens for writing is the destination itself (there
    is no temporary file and no move), and a call that can write is made
    only once every input has been read. When the merge raises, the bytes
    at the destination are what they were, unless the write itself failed
    after the destination was opened: then the destination holds a
    truncated document, the bytes that fitted on the disk. *)
Theorem output_written_in_place (paths : list string) (out : string) (w : world) :
  exists r w' evs,
    merge_pdfs (PyList (PyStr <$> paths)) out w = (r, w')
    /\ trace w' = trace w ++ evs
    /\ (forall p, EvOpenWrite p ∈ evs -> p = out)
    /\ (Exists (fun ev => is_write_event ev = true) evs ->
        exists pss, all_read (fs w) paths pss)
    /\ (forall e, r = inl e ->
          file_data (fs w') out = file_data (fs w) out
          \/ exists ps, read_all (fs w) paths [] = inr ps
                /\ disk_free w < length (serialize ps)
                /\ file_data (fs w') out = Some (take (disk_free w) (serialize ps))).
Proof.
  destruct paths as [|p0 rest].
  { eexists _, w, []. split; [reflexivity|].
    rewrite app_nil_r. repeat split; auto.
    - intros p Hp. inversion Hp.
    - intros Hex. inversion Hex. }
  set (paths := p0 :: rest).
  rewrite merge_pdfs_run by discriminate.
  pose proof (check_events_no_write (fs w) paths) as Hck.
  pose proof (loop_events_no_write (fs w) paths) as Hlp.
  destruct (check_all (fs w) paths) as [e|[]].
  { eexists _, _, _. split; [reflexivity|]. cbn [fs trace].
    split; [reflexivity|]. split; [|split]; auto.
    - intros p Hp. destruct (no_write_event_no_open _ _ Hck Hp).
    - intros Hex. destruct (no_write_event_not_exists _ Hck Hex). }
  assert (Hrd : Forall (fun ev => is_write_event ev = false)
                  (check_events (fs w) paths ++ loop_events (fs w) paths))
    by (apply Forall_app; auto).
  destruct (read_all (fs w) paths []) as [e|ps] eqn:Hread.
  { destruct (report_and_reraise_run e (after_reads paths out w)) as [m ->].
    eexists _, _, _. split; [reflexivity|]. cbn [add_stdout after_reads fs trace].
    split; [reflexivity|]. split; [|split]; auto.
    - intros p Hp. destruct (no_write_event_no_open _ _ Hrd Hp).
    - intros Hex. destruct (no_write_event_not_exists _ Hrd Hex). }
  destruct (try_report_run (finish (length paths) out {| pages := ps |})
              (after_reads paths out w)) as (o & -> & _).
  destruct (finish_cases (length paths) out {| pages := ps |} (after_reads paths out w))
    as (r & w1 & evs & -> & Ht & Hopen & Hdata).
  cbn [fst snd after_reads fs disk_free trace pages] in *.
  eexists r, _, ((check_events (fs w) paths ++ loop_events (fs w) paths) ++ evs).
  split; [reflexivity|]. cbn [fs trace].
  split; [now rewrite Ht, <- !app_assoc|]. split; [|split].
  - intros p Hp. apply elem_of_app in Hp as [Hp|Hp]; [|auto].
    destruct (no_write_event_no_open _ _ Hrd Hp).
  - intros _. eapply read_all_inv; eauto.
  - intros e He. destruct (Hdata e He) as [Hsame|[Hfull Htrunc]]; [now left|].
    right. exists ps. auto.
Qed.

Lemma path_isdir_lookup (f : gmap string node) (d : string) (wr : bool) :
  d <> "" -> f !! d = Some (Dir wr) -> os.path_isdir f d = true.
Proof. intros Hd Hf. unfold os.path_isdir. now rewrite stat_lookup, Hf. Qed.

(** C10. When every input has been read and the parent directory of
    [output_path] is named and missing, [os.makedirs] is called on it
    right after the reads, before the output is opened. If it succeeds,
    the directory exists from then on, whatever becomes of the write, and
    the output is opened next; if it fails, the merge raises the [IOError]
    of line 88 and the output is never opened. *)
Theorem output_directory_created (paths : list string) (pss : list (list page))
    (out : string) (w : world) :
  paths <> [] ->
  all_read (fs w) paths pss ->
  posixpath.dirname out <> "" ->
  os.path_exists (fs w) (posixpath.dirname out) = false ->
  exists r w' evs,
    merge_pdfs (PyList (PyStr <$> paths)) out w = (r, w')
    /\ trace w' = trace (after_reads paths out w)
                    ++ [EvExists (posixpath.dirname out); EvMakedirs (posixpath.dirname out)]
                    ++ evs
    /\ match os.makedirs (fs w) (posixpath.dirname out) with
       | (Some e, f1) =>
           r = inl (makedirs_error (posixpath.dirname out) e)
           /\ evs = [] /\ fs w' = f1
       | (None, f1) =>
           os.path_isdir f1 (posixpath.dirname out) = true
           /\ os.path_isdir (fs w') (posixpath.dirname out) = true
           /\ MsgCreatedDir (posixpath.dirname out) ∈ stdout w'
           /\ exists evs', evs = EvOpenWrite out :: evs'
       end.
Proof.
  intros Hne Hread Hd Hmissing. set (d := posixpath.dirname out) in *.
  rewrite merge_pdfs_run by assumption.
  rewrite (check_all_ok _ _ (all_read_regular _ _ _ Hread)).
  rewrite (read_all_ok _ _ _ [] Hread). rewrite app_nil_l.
  destruct (try_report_run (finish (length paths) out {| pages := concat pss |})
              (after_reads paths out w)) as (o & -> & Hout).
  revert Hout. unfold finish, bind.
  set (w0 := (if Nat.eqb (length (pages {| pages := concat pss |})) 0
              then print MsgNoPages else ret tt) (after_reads paths out w)).
  assert (Hw0 : exists o0, w0 = (inr tt, World (fs w) (disk_free w) o0
                                             (trace (after_reads paths out w)))).
  { subst w0. destruct (Nat.eqb _ 0); eexists; reflexivity. }
  destruct Hw0 as [o0 ->].
  rewrite ensure_output_dir_run. cbv zeta. fold d. cbn [fs disk_free stdout trace].
  apply String.eqb_neq in Hd. rewrite Hd, Hmissing.
  destruct (os.makedirs (fs w) d) as [[e|] f1] eqn:Hmk.
  - intros _. cbn [fst snd fs disk_free trace].
    eexists _, _, []. split; [reflexivity|]. cbn [fs trace].
    rewrite app_nil_r. auto.
  - unfold os.makedirs in Hmk. apply makedirs_rec_ok in Hmk as [Hdne Hdir].
    rewrite write_output_run. cbn [fs disk_free stdout trace pages]. cbv zeta.
    destruct (os.open_wb f1 out) as [e|f2] eqn:Ho.
    + intros Hout. cbn [fst snd fs disk_free trace stdout] in *.
      eexists _, _, [EvOpenWrite out]. split; [reflexivity|]. cbn [fs trace stdout].
      split; [now rewrite <- !app_assoc|].
      repeat split; eauto using path_isdir_lookup.
      apply Hout. apply elem_of_app. right. apply elem_of_cons. now left.
    + apply open_wb_ok in Ho as (_ & rd & -> & Hfree).
      assert (Hne' : out <> d)
        by (intros Heq; rewrite Heq in Hfree; destruct Hfree as [?|[? ?]]; congruence).
      destruct (Nat.leb (length (serialize (concat pss))) (disk_free w));
        rewrite store_insert; run_monad; intros Hout;
        (eexists _, _, [EvOpenWrite out; EvWrite out _]; split; [reflexivity|];
         cbn [fs trace stdout];
         split; [now rewrite <- !app_assoc|];
         repeat split; eauto using path_isdir_lookup;
         [eapply path_isdir_lookup; [exact Hdne|];
          rewrite lookup_insert_ne by assumption; exact Hdir
         |apply Hout; rewrite !elem_of_app; cbn; rewrite ?elem_of_app, ?elem_of_cons; auto]).
Qed.

End write_errors.

(** ** The theorems at work on the toy library *)

Lemma merge_two_in_order_witness :
  read_pdf (lib := Toy.lib) (fs Toy.roomy) "a.pdf" = inr [x01; x02]
  /\ read_pdf (lib := Toy.lib) (fs Toy.roomy) "b.pdf" = inr [x03]
  /\ exists w' data,
       merge_pdfs (lib := Toy.lib) (PyList [PyStr "a.pdf"; PyStr "b.pdf"]) "out.pdf" Toy.roomy
       = (inr tt, w')
       /\ file_data (fs w') "out.pdf" = Some data
       /\ data = serialize (PyPDF2 := Toy.lib) [x01; x02; x03]
       /\ PdfReader (PyPDF2 := Toy.lib) data = inr [x01; x02; x03]
       /\ page_count (lib := Toy.lib) data = Some (2 + 1).
Proof.
  split; [vm_compute; reflexivity|]. split; [vm_compute; reflexivity|].
  apply (merge_two_in_order (lib := Toy.lib) "a.pdf" "b.pdf" "out.pdf"
           [x01; x02] [x03] Toy.roomy).
  - intros ps. reflexivity.
  - vm_compute; reflexivity.
  - vm_compute; reflexivity.
  - vm_compute; reflexivity.
  - simpl. lia.
Defined.

Lemma merge_single_round_trip_witness :
  exists w' data ps',
    merge_pdfs (lib := Toy.lib) (PyList [PyStr "a.pdf"]) "out.pdf" Toy.roomy = (inr tt, w')
    /\ file_data (fs w') "out.pdf" = Some data
    /\ PdfReader (PyPDF2 := Toy.lib) data = inr ps'
    /\ length ps' = 2
    /\ content_stream (PyPDF2 := Toy.lib) <$> ps' = [[x01]; [x02]].
Proof.
  apply (merge_single_round_trip (lib := Toy.lib) "a.pdf" "out.pdf" [x01; x02] Toy.roomy).
  - intros ps. reflexivity.
  - vm_compute; reflexivity.
  - vm_compute; reflexivity.
  - simpl. lia.
Defined.

Lemma empty_input_skipped_witness :
  exists w',
    merge_pdfs (lib := Toy.lib) (PyList [PyStr "a.pdf"; PyStr "z.pdf"; PyStr "b.pdf"])
               "out.pdf" Toy.roomy = (inr tt, w')
    /\ MsgWarnEmpty "z.pdf" ∈ stdout w'
    /\ file_data (fs w') "out.pdf" = Some [x50; x01; x02; x03].
Proof.
  apply (empty_input_skipped (lib := Toy.lib) ["a.pdf"; "z.pdf"; "b.pdf"]
           [[x01; x02]; []; [x03]] "z.pdf" "out.pdf" Toy.roomy).
  - repeat (constructor; [vm_compute; reflexivity|]). constructor.
  - repeat constructor.
  - vm_compute; reflexivity.
  - vm_compute; reflexivity.
  - simpl. lia.
Defined.

Lemma ill_typed_argument_rejected_witness :
  isinstance_list (PyStr "not a list") = false
  /\ exists msg,
       merge_pdfs (lib := Toy.lib) (PyStr "not a list") "error_test_invalid_input_type.pdf"
                  Toy.roomy
       = (inl (Exn ValueError msg), Toy.roomy).
Proof.
  split; [reflexivity|].
  apply (ill_typed_argument_rejected (lib := Toy.lib) (PyStr "not a list")).
  left. reflexivity.
Defined.

Lemma missing_input_rejected_witness :
  exists before q after w' evs,
    ["a.pdf"; "non_existent_file.pdf"] = before ++ q :: after
    /\ Forall (fun x => is_regular (fs Toy.roomy) x = true) before
    /\ is_regular (fs Toy.roomy) q = false
    /\ merge_pdfs (lib := Toy.lib) (PyList (PyStr <$> ["a.pdf"; "non_existent_file.pdf"]))
                  "error_test_output.pdf" Toy.roomy
       = (inl (Exn FileNotFoundError
                 ((if os.path_exists (fs Toy.roomy) q then "Input path is not a file: "
                   else "Input file not found: ") +:+ q)), w')
    /\ fs w' = fs Toy.roomy /\ disk_free w' = disk_free Toy.roomy
    /\ stdout w' = stdout Toy.roomy
    /\ trace w' = trace Toy.roomy ++ evs
    /\ Forall (fun ev => is_check_event ev = true) evs.
Proof.
  apply (missing_input_rejected (lib := Toy.lib) ["a.pdf"; "non_existent_file.pdf"]
           "non_existent_file.pdf" "error_test_output.pdf" Toy.roomy).
  - simpl. auto.
  - vm_compute; reflexivity.
Defined.

Lemma read_failure_aborts_witness :
  exists before pss q e' after w' evs,
    ["a.pdf"; "enc.pdf"; "b.pdf"] = before ++ q :: after
    /\ all_read (lib := Toy.lib) (fs Toy.roomy) before pss
    /\ read_pdf (lib := Toy.lib) (fs Toy.roomy) q = inl e'
    /\ merge_pdfs (lib := Toy.lib) (PyList (PyStr <$> ["a.pdf"; "enc.pdf"; "b.pdf"]))
                  "out.pdf" Toy.roomy
       = (inl (reraise_read_error q e'), w')
    /\ mentions (exn_msg (reraise_read_error q e')) (posixpath.basename q) = true
    /\ fs w' = fs Toy.roomy /\ disk_free w' = disk_free Toy.roomy
    /\ trace w' = trace Toy.roomy ++ evs
    /\ Forall (fun ev => is_write_event ev = false) evs.
Proof.
  apply (read_failure_aborts (lib := Toy.lib) ["a.pdf"; "enc.pdf"; "b.pdf"] "enc.pdf"
           "out.pdf" (Exn PdfReadError "File has not been decrypted") Toy.roomy).
  - repeat (constructor; [vm_compute; reflexivity|]). constructor.
  - simpl. auto.
  - vm_compute; reflexivity.
Defined.

Lemma empty_merge_still_written_witness :
  exists w',
    merge_pdfs (lib := Toy.lib) (PyList (PyStr <$> ["z.pdf"])) "out.pdf" Toy.roomy
    = (inr tt, w')
    /\ MsgNoPages ∈ stdout w'
    /\ file_data (fs w') "out.pdf" = Some [x50].
Proof.
  apply (empty_merge_still_written (lib := Toy.lib) ["z.pdf"] "out.pdf" Toy.roomy).
  - discriminate.
  - repeat (constructor; [vm_compute; reflexivity|]). constructor.
  - vm_compute; reflexivity.
  - simpl. lia.
Defined.

Lemma output_directory_created_witness :
  os.path_exists (fs Toy.roomy) "nonexistent_folder" = false
  /\ exists r w' evs,
       merge_pdfs (lib := Toy.lib) (PyList (PyStr <$> ["a.pdf"]))
                  "nonexistent_folder/error_output.pdf" Toy.roomy = (r, w')
       /\ trace w' = trace (after_reads (lib := Toy.lib) ["a.pdf"]
                              "nonexistent_folder/error_output.pdf" Toy.roomy)
                       ++ [EvExists "nonexistent_folder"; EvMakedirs "nonexistent_folder"]
                       ++ evs
       /\ os.path_isdir (fs w') "nonexistent_folder" = true
       /\ MsgCreatedDir "nonexistent_folder" ∈ stdout w'
       /\ exists evs', evs = EvOpenWrite "nonexistent_folder/error_output.pdf" :: evs'.
Proof.
  split; [vm_compute; reflexivity|].
  destruct (output_directory_created (lib := Toy.lib) ["a.pdf"] [[x01; x02]]
              "nonexistent_folder/error_output.pdf" Toy.roomy)
    as (r & w' & evs & Hrun & Htrace & Hdir).
  - discriminate.
  - repeat (constructor; [vm_compute; reflexivity|]). constructor.
  - vm_compute. discriminate.
  - vm_compute; reflexivity.
  - exists r, w', evs. split; [exact Hrun|]. split; [exact Htrace|].
    change (posixpath.dirname "nonexistent_folder/error_output.pdf")
      with "nonexistent_folder" in Hdir.
    destruct (os.makedirs (fs Toy.roomy) "nonexistent_folder") as [[e|] f1] eqn:Hmk;
      [vm_compute in Hmk; discriminate|].
    destruct Hdir as (_ & Hd & Hmsg & Hevs). auto.
Defined.

(** ** Where the specification and the code part *)

(** C7 as stated fails when a directory stands before the missing path:
    the error names the directory, which exists, and not the missing path. *)
Lemma directory_before_missing_path_counterexample :
  os.path_exists (fs Toy.roomy) "missing.pdf" = false
  /\ os.path_exists (fs Toy.roomy) "somedir" = true
  /\ fst (Toy.run ["somedir"; "missing.pdf"] "out.pdf" Toy.roomy)
     = inl (Exn FileNotFoundError "Input path is not a file: somedir")
  /\ mentions "Input path is not a file: somedir" "missing.pdf" = false.
Proof. vm_compute. repeat split. Qed.

(** C3 as stated fails: with one input that has no pages, no page is
    appended, and yet the merge returns normally and writes the document
    without pages. *)
Lemma empty_output_written_counterexample :
  read_all (lib := Toy.lib) (fs Toy.roomy) ["z.pdf"] [] = inr []
  /\ file_data (fs Toy.roomy) "out.pdf" = None
  /\ fst (Toy.run ["z.pdf"] "out.pdf" Toy.roomy) = inr tt
  /\ file_data (fs (snd (Toy.run ["z.pdf"] "out.pdf" Toy.roomy))) "out.pdf"
     = Some (serialize (PyPDF2 := Toy.lib) [])
  /\ page_count (lib := Toy.lib) (serialize (PyPDF2 := Toy.lib) []) = Some 0.
Proof. vm_compute. repeat split. Qed.

(** C4 as stated fails: the destination is opened in place, and when the
    disk fills up during the write the earlier output is gone and a
    truncated document is left (two bytes of the three to write). *)
Lemma truncated_output_counterexample :
  file_data (fs Toy.nearly_full) "out.pdf" = Some [x50; x09; x09; x09; x09; x09]
  /\ serialize (PyPDF2 := Toy.lib) [x01; x02] = [x50; x01; x02]
  /\ fst (Toy.run ["a.pdf"] "out.pdf" Toy.nearly_full)
     = inl (Exn OSError "[Errno 28] No space left on device")
  /\ file_data (fs (snd (Toy.run ["a.pdf"] "out.pdf" Toy.nearly_full))) "out.pdf"
     = Some [x50; x01]
  /\ trace (snd (Toy.run ["a.pdf"] "out.pdf" Toy.nearly_full))
     = [EvExists "a.pdf"; EvIsFile "a.pdf"; EvOpenRead "a.pdf"; EvPdfReader "a.pdf";
        EvOpenWrite "out.pdf"; EvWrite "out.pdf" 3].
Proof. vm_compute. repeat split. Qed.

(** * Further properties of [merge_pdfs] *)

Section argument.

Context {lib : PyPDF2}.

Lemma all_str_fmap (l : list pyval) :
  forallb isinstance_str l = true -> l = PyStr <$> str_items (PyList l).
Proof.
  unfold str_items. cbn [items].
  induction l as [|x l IH]; [reflexivity|]. cbn [forallb].
  intros Hall. apply andb_true_iff in Hall as [Hx Hl].
  destruct x; try discriminate. cbn. f_equal. exact (IH Hl).
Qed.

(** Either the argument is turned down at once, or it is a non-empty list
    of strings. *)
Lemma argument_cases (v : pyval) (out : string) (w : world) :
  (exists msg, merge_pdfs v out w = (inl (Exn ValueError msg), w))
  \/ (exists paths, paths <> [] /\ v = PyList (PyStr <$> paths)).
Proof.
  destruct v as [| | | | | |l]; try (left; eexists; reflexivity).
  destruct l as [|x l]; [left; eexists; reflexivity|].
  destruct (forallb isinstance_str (x :: l)) eqn:Hall.
  - right. exists (str_items (PyList (x :: l))).
    pose proof (all_str_fmap _ Hall) as Heq. split; [|now f_equal].
    intros Hnil. rewrite Hnil in Heq. discriminate.
  - left. unfold merge_pdfs.
    change (negb (isinstance_list (PyList (x :: l)))
            || negb (truthy (PyList (x :: l)))) with false.
    cbv iota. cbn [items]. rewrite Hall. eexists. reflexivity.
Qed.

End argument.

Section more_phases.

Context {lib : PyPDF2}.

Lemma reraise_read_error_class (p : string) (e : exn) :
  exn_cls (reraise_read_error p e)
  = if is_PdfReadError (exn_cls e) then PdfReadError else Exception.
Proof. unfold reraise_read_error. now destruct (is_PdfReadError (exn_cls e)). Qed.

(** A change that only fills free paths or replaces a file by a file
    keeps what was there. *)
Lemma kinds_kept_intro (f f' : gmap string node) :
  (forall k,
     f' !! k = f !! k
     \/ f !! k = None
     \/ exists r wr d r' wr' d',
          f !! k = Some (File r wr d) /\ f' !! k = Some (File r' wr' d')) ->
  kinds_kept f f'.
Proof.
  intros H k. unfold os.path_isfile, os.path_isdir, os.stat.
  destruct (String.eqb k ""); [split; discriminate|].
  destruct (H k) as [->|[->|(r & wr & d & r' & wr' & d' & -> & ->)]];
    split; auto; discriminate.
Qed.

Lemma kinds_kept_refl (f : gmap string node) : kinds_kept f f.
Proof. intros k. auto. Qed.

Lemma kinds_kept_trans (f1 f2 f3 : gmap string node) :
  kinds_kept f1 f2 -> kinds_kept f2 f3 -> kinds_kept f1 f3.
Proof.
  intros H12 H23 k. destruct (H12 k) as [Hf Hd]. destruct (H23 k) as [Hf' Hd'].
  split; auto.
Qed.

Lemma makedirs_kinds_kept (f f' : gmap string node) (d : string) err :
  os.makedirs f d = (err, f') -> kinds_kept f f'.
Proof.
  intros Hmk. apply kinds_kept_intro. intros k.
  destruct (makedirs_rec_frame _ _ _ _ _ Hmk k) as [->|[-> _]]; auto.
Qed.

(** Opening the output and writing to it puts a file where there was none
    or a file. *)
Lemma written_kinds_kept (f : gmap string node) (out : string) (r : bool)
    (data : list byte) :
  f !! out = None \/ (exists d0, f !! out = Some (File r true d0)) ->
  kinds_kept f (<[out := File r true data]> f).
Proof.
  intros Hfree. apply kinds_kept_intro. intros k.
  destruct (decide (out = k)) as [<-|Hne].
  - rewrite lookup_insert_eq. destruct Hfree as [->|[d0 ->]]; [auto|].
    right. right. repeat eexists.
  - left. now apply lookup_insert_ne.
Qed.

(** The output phase, all at once: the calls it makes, and what it does
    to the file system. Nothing that was there is gone; and when the
    parent of the output needs no making, no directory is made and the
    file system is as it was or has a file at the output path. *)
Lemma finish_spec (n : nat) (out : string) (wr : PdfWriter) (w : world) :
  exists r w' evs,
    finish n out wr w = (r, w')
    /\ trace w' = trace w ++ evs
    /\ kinds_kept (fs w) (fs w')
    /\ (String.eqb (posixpath.dirname out) ""
        || os.path_exists (fs w) (posixpath.dirname out) = true ->
        Forall (fun ev => is_makedirs ev = false) evs
        /\ (fs w' = fs w
            \/ exists rd data, fs w' = <[out := File rd true data]> (fs w))).
Proof.
  unfold finish, bind.
  set (w0 := (if Nat.eqb (length (pages wr)) 0 then print MsgNoPages else ret tt) w).
  assert (Hw0 : exists o, w0 = (inr tt, World (fs w) (disk_free w) o (trace w))).
  { subst w0. destruct w as [f d o t].
    destruct (Nat.eqb (length (pages wr)) 0); eexists; reflexivity. }
  destruct Hw0 as [o ->].
  rewrite ensure_output_dir_run. cbv zeta. cbn [fs disk_free stdout trace].
  assert (Hwrite : forall (f1 : gmap string node) o1 evs1,
             kinds_kept (fs w) f1 ->
             (String.eqb (posixpath.dirname out) ""
              || os.path_exists (fs w) (posixpath.dirname out) = true ->
              Forall (fun ev => is_makedirs ev = false) evs1 /\ f1 = fs w) ->
             exists r w' evs,
               (let (r0, w'0) :=
                  write_output out wr (World f1 (disk_free w) o1 (trace w ++ evs1)) in
                match r0 with
                | inr a => print (MsgSuccess n out) w'0
                | inl e => (inl e, w'0)
                end) = (r, w')
               /\ trace w' = trace w ++ evs
               /\ kinds_kept (fs w) (fs w')
               /\ (String.eqb (posixpath.dirname out) ""
                   || os.path_exists (fs w) (posixpath.dirname out) = true ->
                   Forall (fun ev => is_makedirs ev = false) evs
                   /\ (fs w' = fs w
                       \/ exists rd data, fs w' = <[out := File rd true data]> (fs w)))).
  { intros f1 o1 evs1 Hkept Hquiet.
    rewrite write_output_run. cbn [fs disk_free stdout trace]. cbv zeta.
    destruct (os.open_wb f1 out) as [e|f2] eqn:Ho.
    - eexists _, _, (evs1 ++ [EvOpenWrite out]). split; [reflexivity|].
      cbn [fs trace]. split; [now rewrite app_assoc|].
      split; [assumption|].
      intros Hq. destruct (Hquiet Hq) as [Hev Hfs]. split; [|now left].
      apply Forall_app. split; [assumption|repeat constructor].
    - apply open_wb_ok in Ho as (_ & rd & -> & Hfree).
      destruct (Nat.leb (length (serialize (pages wr))) (disk_free w));
        rewrite store_insert; run_monad;
        (eexists _, _, (evs1 ++ [EvOpenWrite out; EvWrite out _]);
         split; [reflexivity|]; cbn [fs trace];
         split; [now rewrite <- !app_assoc|];
         split;
         [eapply kinds_kept_trans; [exact Hkept|now apply written_kinds_kept]
         |intros Hq; destruct (Hquiet Hq) as [Hev ->]; split;
          [apply Forall_app; split; [assumption|repeat constructor]
          |right; eauto]]). }
  destruct (String.eqb (posixpath.dirname out) "") eqn:Hd.
  - destruct (Hwrite (fs w) o []) as (r & w' & evs & Hrun & Hrest);
      [apply kinds_kept_refl|intros _; split; [constructor|reflexivity]|].
    rewrite app_nil_r in Hrun. eauto.
  - cbn [orb].
    destruct (os.path_exists (fs w) (posixpath.dirname out)) eqn:Hex.
    + destruct (Hwrite (fs w) o [EvExists (posixpath.dirname out)])
        as (r & w' & evs & Hrun & Hrest);
        [apply kinds_kept_refl|intros _; split; [repeat constructor|reflexivity]|].
      eauto.
    + destruct (os.makedirs (fs w) (posixpath.dirname out)) as [[e|] f1] eqn:Hmk.
      * eexists _, _, _. split; [reflexivity|]. cbn [fs trace].
        split; [reflexivity|]. split; [|discriminate].
        eapply makedirs_kinds_kept; eauto.
      * destruct (Hwrite f1 (o ++ [MsgCreatedDir (posixpath.dirname out)])
                    [EvExists (posixpath.dirname out);
                     EvMakedirs (posixpath.dirname out)])
          as (r & w' & evs & Hrun & Ht & Hkept & _).
        { eapply makedirs_kinds_kept; eauto. }
        { discriminate. }
        exists r, w', evs. split; [exact Hrun|]. split; [exact Ht|].
        split; [exact Hkept|]. intros Hq. discriminate Hq.
Qed.

End more_phases.

Section more_runs.

Context {lib : PyPDF2}.

Lemma no_write_no_makedirs (evs : list event) :
  Forall (fun ev => is_write_event ev = false) evs ->
  Forall (fun ev => is_makedirs ev = false) evs.
Proof.
  intros H. eapply Forall_impl; [exact H|].
  intros [] ?; reflexivity || discriminate.
Qed.

Lemma check_all_inr (f : gmap string node) (paths : list string) :
  check_all f paths = inr tt -> Forall (fun p => is_regular f p = true) paths.
Proof.
  induction paths as [|p rest IH]; simpl; [constructor|].
  destruct (os.path_exists f p) eqn:Hex; simpl; [|discriminate].
  destruct (os.path_isfile f p) eqn:Hfile; simpl; [|discriminate].
  intros Hrest. constructor; [|exact (IH Hrest)].
  unfold is_regular. now rewrite Hex, Hfile.
Qed.

Lemma loop_events_all_read (f : gmap string node) paths pss :
  all_read f paths pss -> loop_events f paths = read_calls paths.
Proof.
  induction 1 as [|p ps rest pss' Hp _ IH]; [reflexivity|].
  cbn [loop_events read_calls flat_map]. rewrite Hp, IH.
  unfold file_events. unfold read_pdf in Hp.
  destruct (os.open_rb f p); [discriminate|reflexivity].
Qed.

Lemma loop_events_first_bad (f : gmap string node) before pss q after e :
  all_read f before pss ->
  read_pdf f q = inl e ->
  loop_events f (before ++ q :: after) = read_calls before ++ file_events f q.
Proof.
  intros Hb Hq. induction Hb as [|p ps rest pss' Hp _ IH].
  - cbn [app loop_events read_calls flat_map]. rewrite Hq. now rewrite app_nil_r.
  - cbn [app loop_events read_calls flat_map]. rewrite Hp, IH.
    unfold file_events at 1. unfold read_pdf in Hp.
    destruct (os.open_rb f p); [discriminate|reflexivity].
Qed.

Lemma loop_msgs_all_read (f : gmap string node) (n i : nat) paths pss :
  all_read f paths pss -> loop_msgs f n i paths = progress_lines n i paths pss.
Proof.
  intros H. revert i. induction H as [|p ps rest pss' Hp _ IH]; intros i; [reflexivity|].
  cbn [loop_msgs progress_lines]. unfold file_msgs. rewrite Hp, IH.
  destruct ps; reflexivity.
Qed.

Lemma length_concat_sum (pss : list (list page)) :
  length (concat pss) = sum_list (length <$> pss).
Proof.
  induction pss as [|ps pss IH]; [reflexivity|].
  cbn. rewrite length_app, IH. reflexivity.
Qed.

(** X1. Merging any non-empty list of inputs that are all read, to a
    destination that can be written, returns normally and leaves at
    [output_path] the document made of the pages of the inputs in the
    order of the list; read back, it has as many pages as the inputs have
    together. *)
Theorem merge_in_list_order (paths : list string) (pss : list (list page))
    (out : string) (w : world) :
  reads_back_what_it_writes ->
  paths <> [] ->
  all_read (fs w) paths pss ->
  destination_ready (fs w) out = true ->
  length (serialize (concat pss)) <= disk_free w ->
  exists w',
    merge_pdfs (PyList (PyStr <$> paths)) out w = (inr tt, w')
    /\ file_data (fs w') out = Some (serialize (concat pss))
    /\ PdfReader (serialize (concat pss)) = inr (concat pss)
    /\ page_count (serialize (concat pss)) = Some (sum_list (length <$> pss)).
Proof.
  intros Hlib Hne Hread Hready Hfits.
  destruct (merge_pdfs_ok paths pss out w Hne Hread Hready Hfits)
    as (r & w' & Hrun & Hfs & _).
  exists w'. split; [exact Hrun|].
  rewrite Hfs, file_data_insert. unfold page_count.
  rewrite Hlib, length_concat_sum. auto.
Qed.

(** X2. Whatever the argument and the world, [merge_pdfs] removes
    nothing: a path that was a regular file is a regular file when the
    run ends (truncated or rewritten, if it is the output), and a path
    that was a directory is a directory. *)
Theorem nothing_removed (v : pyval) (out k : string) (w : world) :
  (os.path_isfile (fs w) k = true ->
   os.path_isfile (fs (snd (merge_pdfs v out w))) k = true)
  /\ (os.path_isdir (fs w) k = true ->
      os.path_isdir (fs (snd (merge_pdfs v out w))) k = true).
Proof.
  revert k. change (kinds_kept (fs w) (fs (snd (merge_pdfs v out w)))).
  destruct (argument_cases v out w) as [[msg ->]|(paths & Hne & ->)];
    [apply kinds_kept_refl|].
  rewrite merge_pdfs_run by assumption.
  destruct (check_all (fs w) paths) as [e|[]]; [apply kinds_kept_refl|].
  destruct (read_all (fs w) paths []) as [e|ps].
  { destruct (report_and_reraise_run e (after_reads paths out w)) as [m ->].
    apply kinds_kept_refl. }
  destruct (try_report_run (finish (length paths) out {| pages := ps |})
              (after_reads paths out w)) as (o & -> & _).
  destruct (finish_spec (length paths) out {| pages := ps |} (after_reads paths out w))
    as (r & w1 & evs & -> & _ & Hkept & _).
  cbn [fst snd fs]. exact Hkept.
Qed.

(** X3. When every input passes the existence check and [q] is the first
    input whose reading raises, with exception [e]: a [PdfReadError] is
    raised again as a [PdfReadError] and reported with "Merge failed";
    anything else, an [OSError] from [open] included, is raised as a plain
    [Exception] and reported as an unexpected error. The report is the last
    line printed. *)
Theorem read_failure_classified (before after : list string) (pss : list (list page))
    (q out : string) (e : exn) (w : world) :
  Forall (fun x => is_regular (fs w) x = true) (before ++ q :: after) ->
  all_read (fs w) before pss ->
  read_pdf (fs w) q = inl e ->
  exists w',
    merge_pdfs (PyList (PyStr <$> (before ++ q :: after))) out w
    = (inl (reraise_read_error q e), w')
    /\ exn_cls (reraise_read_error q e)
       = (if is_PdfReadError (exn_cls e) then PdfReadError else Exception)
    /\ last (stdout w')
       = Some (if is_PdfReadError (exn_cls e)
               then MsgMergeFailed (exn_msg (reraise_read_error q e))
               else MsgUnexpected (exn_msg (reraise_read_error q e))).
Proof.
  intros Hreg Hb Hq.
  rewrite merge_pdfs_run by (now destruct before).
  rewrite (check_all_ok _ _ Hreg), (read_all_first_bad _ _ _ _ _ _ [] Hb Hq).
  unfold report_and_reraise. rewrite reraise_read_error_class.
  destruct (is_PdfReadError (exn_cls e)); run_monad;
    (eexists; split; [reflexivity|]; split; [reflexivity|];
     cbn [stdout]; apply last_snoc).
Qed.

(** X4. With the same premises, the calls made are the existence checks of
    all inputs, the reads of the inputs before [q], and the read of [q]:
    the inputs after [q] are never opened and no call that could write is
    made. *)
Theorem reading_stops_at_first_failure (before after : list string)
    (pss : list (list page)) (q out : string) (e : exn) (w : world) :
  Forall (fun x => is_regular (fs w) x = true) (before ++ q :: after) ->
  all_read (fs w) before pss ->
  read_pdf (fs w) q = inl e ->
  trace (snd (merge_pdfs (PyList (PyStr <$> (before ++ q :: after))) out w))
  = trace w ++ check_events (fs w) (before ++ q :: after)
      ++ read_calls before ++ file_events (fs w) q.
Proof.
  intros Hreg Hb Hq.
  rewrite merge_pdfs_run by (now destruct before).
  rewrite (check_all_ok _ _ Hreg), (read_all_first_bad _ _ _ _ _ _ [] Hb Hq).
  destruct (report_and_reraise_run (reraise_read_error q e)
              (after_reads (before ++ q :: after) out w)) as [m ->].
  cbn [snd add_stdout after_reads trace fs].
  now rewrite (loop_events_first_bad _ _ _ _ _ _ Hb Hq).
Qed.

(** The calls of a run on a list of paths start with the existence checks. *)
Lemma checks_are_first_calls (paths : list string) (out : string) (w : world) :
  exists rest,
    trace (snd (merge_pdfs (PyList (PyStr <$> paths)) out w))
    = trace w ++ check_events (fs w) paths ++ rest.
Proof.
  destruct paths as [|p0 rest0]; [exists []; now rewrite !app_nil_r|].
  set (paths := p0 :: rest0).
  rewrite merge_pdfs_run by discriminate.
  destruct (check_all (fs w) paths) as [e|[]]; [exists []; now rewrite app_nil_r|].
  destruct (read_all (fs w) paths []) as [e|ps].
  { destruct (report_and_reraise_run e (after_reads paths out w)) as [m ->].
    now exists (loop_events (fs w) paths). }
  destruct (try_report_run (finish (length paths) out {| pages := ps |})
              (after_reads paths out w)) as (o & -> & _).
  destruct (finish_spec (length paths) out {| pages := ps |} (after_reads paths out w))
    as (r & w1 & evs & -> & Ht & _).
  cbn [fst snd trace after_reads] in *. exists (loop_events (fs w) paths ++ evs).
  now rewrite Ht, <- !app_assoc.
Qed.

(** X5. The existence checks come first and are all-or-nothing: the calls
    of a run start with the checks of the inputs in list order, and any
    call after them (an input opened, a directory made, the output
    written) is made only when every input is an existing regular file. *)
Theorem inputs_checked_first (paths : list string) (out : string) (w : world) :
  exists rest,
    trace (snd (merge_pdfs (PyList (PyStr <$> paths)) out w))
    = trace w ++ check_events (fs w) paths ++ rest
    /\ (rest <> [] -> Forall (fun p => is_regular (fs w) p = true) paths).
Proof.
  destruct paths as [|p0 rest0].
  { exists []. split; [now rewrite !app_nil_r|]. intros H. now destruct H. }
  set (paths := p0 :: rest0).
  rewrite merge_pdfs_run by discriminate.
  destruct (check_all (fs w) paths) as [e|[]] eqn:Hck.
  { exists []. split; [now rewrite app_nil_r|]. intros H. now destruct H. }
  apply check_all_inr in Hck.
  destruct (read_all (fs w) paths []) as [e|ps].
  { destruct (report_and_reraise_run e (after_reads paths out w)) as [m ->].
    exists (loop_events (fs w) paths). split; [reflexivity|auto]. }
  destruct (try_report_run (finish (length paths) out {| pages := ps |})
              (after_reads paths out w)) as (o & -> & _).
  destruct (finish_spec (length paths) out {| pages := ps |} (after_reads paths out w))
    as (r & w1 & evs & -> & Ht & _).
  cbn [fst snd trace after_reads] in *. exists (loop_events (fs w) paths ++ evs).
  split; [now rewrite Ht, <- !app_assoc|auto].
Qed.

(** X6. When the parent of [output_path] is the current directory or
    exists, no run of [merge_pdfs] calls [os.makedirs], and no directory
    appears: a path that was not a directory is not one when the run
    ends. *)
Theorem no_directory_made (v : pyval) (out : string) (w : world) :
  String.eqb (posixpath.dirname out) ""
  || os.path_exists (fs w) (posixpath.dirname out) = true ->
  exists evs,
    trace (snd (merge_pdfs v out w)) = trace w ++ evs
    /\ Forall (fun ev => is_makedirs ev = false) evs
    /\ forall k, os.path_isdir (fs w) k = false ->
                 os.path_isdir (fs (snd (merge_pdfs v out w))) k = false.
Proof.
  intros Hparent.
  destruct (argument_cases v out w) as [[msg ->]|(paths & Hne & ->)].
  { exists []. cbn [snd]. rewrite app_nil_r. auto. }
  rewrite merge_pdfs_run by assumption.
  pose proof (no_write_no_makedirs _ (check_events_no_write (fs w) paths)) as Hck.
  pose proof (no_write_no_makedirs _ (loop_events_no_write (fs w) paths)) as Hlp.
  destruct (check_all (fs w) paths) as [e|[]].
  { eexists. cbn [snd trace fs]. auto. }
  destruct (read_all (fs w) paths []) as [e|ps].
  { destruct (report_and_reraise_run e (after_reads paths out w)) as [m ->].
    eexists. cbn [snd add_stdout after_reads trace fs].
    split; [reflexivity|]. split; [|auto]. apply Forall_app. auto. }
  destruct (try_report_run (finish (length paths) out {| pages := ps |})
              (after_reads paths out w)) as (o & -> & _).
  destruct (finish_spec (length paths) out {| pages := ps |} (after_reads paths out w))
    as (r & w1 & evs & -> & Ht & _ & Hquiet).
  cbn [fst snd trace fs after_reads] in *.
  destruct (Hquiet Hparent) as [Hev Hfs].
  exists ((check_events (fs w) paths ++ loop_events (fs w) paths) ++ evs).
  split; [now rewrite Ht, <- !app_assoc|]. split.
  - repeat (apply Forall_app; split); assumption.
  - intros k Hk. destruct Hfs as [->|(rd & data & ->)]; [exact Hk|].
    unfold os.path_isdir, os.stat in *.
    destruct (String.eqb k ""); [reflexivity|].
    destruct (decide (out = k)) as [<-|Hne'].
    + now rewrite lookup_insert_eq.
    + now rewrite lookup_insert_ne.
Qed.

(** X7. What a merge that goes through prints, when no directory has to be
    made: the three opening lines, then for each input in list order
    "Processing file i/n" numbered from 1 (followed by the warning when the
    input has no pages), then the notice when no page was added at all,
    then the line of success; nothing else. *)
Theorem success_transcript (paths : list string) (pss : list (list page))
    (out : string) (w : world) :
  paths <> [] ->
  all_read (fs w) paths pss ->
  destination_ready (fs w) out = true ->
  length (serialize (concat pss)) <= disk_free w ->
  stdout (snd (merge_pdfs (PyList (PyStr <$> paths)) out w))
  = stdout w
      ++ [MsgStarting; MsgInputFiles paths; MsgOutputFile out]
      ++ progress_lines (length paths) 0 paths pss
      ++ (if Nat.eqb (length (concat pss)) 0 then [MsgNoPages] else [])
      ++ [MsgSuccess (length paths) out].
Proof.
  intros Hne Hread Hready Hfits.
  destruct (merge_pdfs_ok paths pss out w Hne Hread Hready Hfits)
    as (r & w' & -> & _ & Hout).
  cbn [snd]. rewrite Hout. cbn [after_reads stdout].
  rewrite (loop_msgs_all_read _ _ _ _ _ Hread).
  now rewrite <- !app_assoc.
Qed.

End more_runs.

(** * Properties of the worker and the window *)

Section window.

Context {lib : PyPDF2}.

Import pyside6.

Lemma start_merge_started (self self' : MainWindow) (worker : MergeWorker) :
  start_merge self = (self', Some worker) ->
  input_files self <> []
  /\ output_file self <> ""
  /\ worker = {| input_paths := PyList (PyStr <$> input_files self);
                 output_path := output_file self |}
  /\ busy self'.
Proof.
  unfold start_merge.
  destruct (input_files self) as [|f files] eqn:Hin; [discriminate|]. cbn [length Nat.eqb].
  destruct (String.eqb (output_file self) "") eqn:Hout; [discriminate|].
  apply String.eqb_neq in Hout. intros [= <- <-].
  repeat split; auto.
Qed.

(** X9. The worker the window starts is never turned down for its
    arguments: [start_merge] starts one only with a non-empty list of
    selected files and a non-empty output path, so [merge_pdfs] gets past
    its validation, and its first call is the existence check of the first
    selected file. *)
Theorem window_passes_validation (self self' : MainWindow) (worker : MergeWorker)
    (w : world) :
  start_merge self = (self', Some worker) ->
  exists p evs,
    head (input_files self) = Some p
    /\ output_path worker <> ""
    /\ trace (snd (merge_pdfs (input_paths worker) (output_path worker) w))
       = trace w ++ EvExists p :: evs.
Proof.
  intros Hstart. apply start_merge_started in Hstart as (Hin & Hout & -> & _).
  cbn [input_paths output_path].
  destruct (checks_are_first_calls (input_files self) (output_file self) w)
    as (rest & ->).
  destruct (input_files self) as [|p files]; [contradiction|].
  exists p. cbn [head check_events].
  destruct (os.path_exists (fs w) p); cbn [negb];
    [destruct (os.path_isfile (fs w) p); cbn [negb]|];
    eexists; (split; [reflexivity|]); (split; [assumption|]); reflexivity.
Qed.

(** X10. A click on the merge button with both selections made, followed
    until the worker's signals are delivered: the world is left as
    [merge_pdfs] leaves it; whether the merge succeeded or failed, the
    selections are kept, the three buttons are enabled again, and exactly
    one message box was shown, "Merge Complete" with the label "Done: ..."
    after a success and "Merge Failed" with the label "Error: ..." after a
    failure. *)
Theorem merge_session (self : MainWindow) (w : world) :
  input_files self <> [] ->
  output_file self <> "" ->
  snd (merge_clicked self w)
  = snd (merge_pdfs (PyList (PyStr <$> input_files self)) (output_file self) w)
  /\ input_files (fst (merge_clicked self w)) = input_files self
  /\ output_file (fst (merge_clicked self w)) = output_file self
  /\ btn_select_input (fst (merge_clicked self w)) = true
  /\ btn_select_output (fst (merge_clicked self w)) = true
  /\ btn_merge (fst (merge_clicked self w)) = true
  /\ match fst (merge_pdfs (PyList (PyStr <$> input_files self)) (output_file self) w) with
     | inr _ =>
         label_status (fst (merge_clicked self w))
         = "Done: Successfully merged into '"
             +:+ posixpath.basename (output_file self) +:+ "'"
         /\ boxes (fst (merge_clicked self w))
            = boxes self
                ++ [information "Merge Complete"
                      ("Successfully merged into '"
                         +:+ posixpath.basename (output_file self) +:+ "'")]
     | inl e =>
         label_status (fst (merge_clicked self w)) = "Error: " +:+ exn_msg e
         /\ boxes (fst (merge_clicked self w))
            = boxes self
                ++ [critical "Merge Failed"
                      ("An error occurred during merge:" +:+ LF +:+ exn_msg e)]
     end.
Proof.
  intros Hin Hout. unfold merge_clicked, start_merge.
  destruct (input_files self) as [|f files] eqn:Hfiles; [contradiction|].
  cbn [length Nat.eqb].
  apply String.eqb_neq in Hout. rewrite Hout.
  unfold run. cbn [input_paths output_path]. rewrite <- Hfiles.
  destruct (merge_pdfs (PyList (PyStr <$> input_files self)) (output_file self) w)
    as [[e|[]] w'];
    cbn [fst snd app foldl deliver update_status merge_finished merge_error
         reset_ui_state check_merge_button_state show_box set_label
         input_files output_file label_status btn_select_input btn_select_output
         btn_merge boxes];
    rewrite Hfiles, Hout; repeat split; reflexivity.
Qed.

Lemma check_merge_button_state_idle (self : MainWindow) :
  btn_select_input self = true ->
  btn_select_output self = true ->
  idle (check_merge_button_state self).
Proof. intros Hi Ho. repeat split; assumption. Qed.

(** X11. In every state the window can reach, either no signal is pending
    and the window is idle (selection buttons enabled, merge button enabled
    exactly when input files and an output file are selected), or the
    signals of exactly one worker are pending and the three buttons are
    disabled: a second merge cannot be started while one is under way. *)
Theorem window_invariant (g : gui) : reachable g -> invariant g.
Proof.
  induction 1 as [|g g' _ IH Hstep].
  - left. split; [reflexivity|]. repeat split.
  - destruct Hstep as [g dialog Hen|g dialog Hen|g w Hen|g s rest Hq].
    + destruct IH as [[Hq Hidle]|[_ (Hb & _)]]; [|congruence].
      left. split; [exact Hq|]. cbn [window].
      destruct Hidle as (Hi & Ho & Hm).
      destruct dialog as [selected|]; [|repeat split; assumption].
      now apply check_merge_button_state_idle.
    + destruct IH as [[Hq Hidle]|[_ (_ & Hb & _)]]; [|congruence].
      left. split; [exact Hq|]. cbn [window].
      destruct Hidle as (Hi & Ho & Hm).
      destruct dialog as [[|selected more]|]; repeat split; assumption.
    + destruct IH as [[Hq Hidle]|[_ (_ & _ & Hb)]]; [|congruence].
      right. destruct Hidle as (_ & _ & Hm). rewrite Hen in Hm.
      unfold both_selected in Hm. symmetry in Hm.
      apply andb_true_iff in Hm as [Hin Hout].
      apply negb_true_iff in Hin, Hout.
      cbn [window queue]. rewrite Hq. unfold start_merge. rewrite Hin, Hout.
      cbn [fst snd app]. split; [|repeat split].
      unfold run.
      destruct (merge_pdfs _ _ w) as [[e|[]] w']; cbn [fst app];
        eexists; (split; [|right; eexists; reflexivity]); reflexivity.
    + destruct IH as [[Hq' _]|[(t & Ht & [Hq'|[m Hq']]) Hbusy]]; [congruence| |].
      * rewrite Hq in Hq'. injection Hq' as -> ->.
        left. split; [reflexivity|]. cbn [window].
        destruct t as [m|m|e]; [discriminate| |];
          apply check_merge_button_state_idle; reflexivity.
      * rewrite Hq in Hq'. injection Hq' as -> ->.
        right. split; [exists t; auto|]. exact Hbusy.
Qed.

End window.

Section directory_input.

Context {lib : PyPDF2}.

Lemma first_not_a_file (f : gmap string node) (paths : list string) (p : string) :
  Forall (fun x => os.path_exists f x = true) paths ->
  In p paths ->
  os.path_isfile f p = false ->
  exists before q after,
    paths = before ++ q :: after
    /\ Forall (fun x => is_regular f x = true) before
    /\ os.path_exists f q = true
    /\ os.path_isfile f q = false.
Proof.
  induction 1 as [|x rest Hx _ IH]; intros Hin Hp; [destruct Hin|].
  destruct (os.path_isfile f x) eqn:Hfx.
  - destruct Hin as [->|Hin]; [congruence|].
    destruct (IH Hin Hp) as (before & q & after & -> & Hb & Hq).
    exists (x :: before), q, after. split; [reflexivity|]. split; [|exact Hq].
    constructor; [|exact Hb]. unfold is_regular. now rewrite Hx, Hfx.
  - exists [], x, rest. repeat split; auto.
Qed.

(** X8. When every path of the list exists but one of them is not a
    regular file (a directory, say), the merge raises [FileNotFoundError]
    with "Input path is not a file: q" for the first such path [q], after
    existence checks only: nothing is opened, printed or written. *)
Theorem directory_input_rejected (paths : list string) (p out : string) (w : world) :
  Forall (fun x => os.path_exists (fs w) x = true) paths ->
  In p paths ->
  os.path_isfile (fs w) p = false ->
  exists before q after evs,
    paths = before ++ q :: after
    /\ Forall (fun x => is_regular (fs w) x = true) before
    /\ os.path_isfile (fs w) q = false
    /\ merge_pdfs (PyList (PyStr <$> paths)) out w
       = (inl (Exn FileNotFoundError ("Input path is not a file: " +:+ q)),
          World (fs w) (disk_free w) (stdout w) (trace w ++ evs))
    /\ Forall (fun ev => is_check_event ev = true) evs.
Proof.
  intros Hall Hin Hp.
  destruct (first_not_a_file _ _ _ Hall Hin Hp)
    as (before & q & after & -> & Hb & Hex & Hfile).
  exists before, q, after, (check_events (fs w) (before ++ q :: after)).
  split; [reflexivity|]. split; [assumption|]. split; [assumption|].
  rewrite merge_pdfs_run by (now destruct before).
  rewrite (check_all_first_bad _ _ _ _ Hb) by (unfold is_regular; now rewrite Hex, Hfile).
  rewrite Hex. split; [reflexivity|apply check_events_are_checks].
Qed.

End directory_input.

(** ** The further theorems at work *)

Lemma merge_in_list_order_witness :
  exists w',
    merge_pdfs (lib := Toy.lib) (PyList (PyStr <$> ["b.pdf"; "z.pdf"; "a.pdf"]))
               "out.pdf" Toy.roomy = (inr tt, w')
    /\ file_data (fs w') "out.pdf" = Some [x50; x03; x01; x02]
    /\ PdfReader (PyPDF2 := Toy.lib) [x50; x03; x01; x02] = inr [x03; x01; x02]
    /\ page_count (lib := Toy.lib) [x50; x03; x01; x02] = Some 3.
Proof.
  apply (merge_in_list_order (lib := Toy.lib) ["b.pdf"; "z.pdf"; "a.pdf"]
           [[x03]; []; [x01; x02]] "out.pdf" Toy.roomy).
  - intros ps. reflexivity.
  - discriminate.
  - repeat (constructor; [vm_compute; reflexivity|]). constructor.
  - vm_compute; reflexivity.
  - simpl. lia.
Defined.

Lemma nothing_removed_witness :
  os.path_isfile (fs Toy.nearly_full) "out.pdf" = true
  /\ os.path_isdir (fs Toy.nearly_full) "somedir" = true
  /\ os.path_isfile
       (fs (snd (merge_pdfs (lib := Toy.lib) (PyList [PyStr "a.pdf"]) "out.pdf"
                   Toy.nearly_full))) "out.pdf" = true
  /\ os.path_isdir
       (fs (snd (merge_pdfs (lib := Toy.lib) (PyList [PyStr "a.pdf"]) "out.pdf"
                   Toy.nearly_full))) "somedir" = true.
Proof.
  split; [vm_compute; reflexivity|]. split; [vm_compute; reflexivity|]. split.
  - apply (nothing_removed (lib := Toy.lib) (PyList [PyStr "a.pdf"]) "out.pdf"
             "out.pdf" Toy.nearly_full).
    vm_compute; reflexivity.
  - apply (nothing_removed (lib := Toy.lib) (PyList [PyStr "a.pdf"]) "out.pdf"
             "somedir" Toy.nearly_full).
    vm_compute; reflexivity.
Defined.

Lemma read_failure_classified_witness :
  exists w',
    merge_pdfs (lib := Toy.lib) (PyList (PyStr <$> ["a.pdf"; "locked.pdf"; "b.pdf"]))
               "out.pdf" ToyMore.guarded_world
    = (inl (Exn Exception
              "An unexpected error occurred while processing 'locked.pdf': Permission denied: locked.pdf"),
       w')
    /\ exn_cls (Exn Exception
                   "An unexpected error occurred while processing 'locked.pdf': Permission denied: locked.pdf")
       = Exception
    /\ last (stdout w')
       = Some (MsgUnexpected
                 "An unexpected error occurred while processing 'locked.pdf': Permission denied: locked.pdf").
Proof.
  apply (read_failure_classified (lib := Toy.lib) ["a.pdf"] ["b.pdf"] [[x01; x02]]
           "locked.pdf" "out.pdf"
           (Exn PermissionError "Permission denied: locked.pdf") ToyMore.guarded_world).
  - repeat (constructor; [vm_compute; reflexivity|]). constructor.
  - repeat (constructor; [vm_compute; reflexivity|]). constructor.
  - vm_compute; reflexivity.
Defined.

Lemma reading_stops_at_first_failure_witness :
  trace (snd (merge_pdfs (lib := Toy.lib) (PyList (PyStr <$> ["a.pdf"; "enc.pdf"; "b.pdf"]))
                "out.pdf" Toy.roomy))
  = [EvExists "a.pdf"; EvIsFile "a.pdf"; EvExists "enc.pdf"; EvIsFile "enc.pdf";
     EvExists "b.pdf"; EvIsFile "b.pdf";
     EvOpenRead "a.pdf"; EvPdfReader "a.pdf"; EvOpenRead "enc.pdf"; EvPdfReader "enc.pdf"].
Proof.
  apply (reading_stops_at_first_failure (lib := Toy.lib) ["a.pdf"] ["b.pdf"] [[x01; x02]]
           "enc.pdf" "out.pdf" (Exn PdfReadError "File has not been decrypted") Toy.roomy).
  - repeat (constructor; [vm_compute; reflexivity|]). constructor.
  - repeat (constructor; [vm_compute; reflexivity|]). constructor.
  - vm_compute; reflexivity.
Defined.

Lemma no_directory_made_witness :
  exists evs,
    trace (snd (merge_pdfs (lib := Toy.lib) (PyList [PyStr "a.pdf"]) "somedir/out.pdf"
                  Toy.roomy))
    = trace Toy.roomy ++ evs
    /\ Forall (fun ev => is_makedirs ev = false) evs
    /\ forall k, os.path_isdir (fs Toy.roomy) k = false ->
         os.path_isdir
           (fs (snd (merge_pdfs (lib := Toy.lib) (PyList [PyStr "a.pdf"])
                       "somedir/out.pdf" Toy.roomy))) k = false.
Proof.
  apply (no_directory_made (lib := Toy.lib) (PyList [PyStr "a.pdf"]) "somedir/out.pdf"
           Toy.roomy).
  vm_compute; reflexivity.
Defined.

Lemma success_transcript_witness :
  stdout (snd (merge_pdfs (lib := Toy.lib) (PyList (PyStr <$> ["a.pdf"; "z.pdf"]))
                 "out.pdf" Toy.roomy))
  = [MsgStarting; MsgInputFiles ["a.pdf"; "z.pdf"]; MsgOutputFile "out.pdf";
     MsgProcessing 1 2 "a.pdf"; MsgProcessing 2 2 "z.pdf"; MsgWarnEmpty "z.pdf";
     MsgSuccess 2 "out.pdf"].
Proof.
  apply (success_transcript (lib := Toy.lib) ["a.pdf"; "z.pdf"] [[x01; x02]; []]
           "out.pdf" Toy.roomy).
  - discriminate.
  - repeat (constructor; [vm_compute; reflexivity|]). constructor.
  - vm_compute; reflexivity.
  - simpl. lia.
Defined.

Lemma directory_input_rejected_witness :
  exists before q after evs,
    ["a.pdf"; "somedir"; "b.pdf"] = before ++ q :: after
    /\ Forall (fun x => is_regular (fs Toy.roomy) x = true) before
    /\ os.path_isfile (fs Toy.roomy) q = false
    /\ merge_pdfs (lib := Toy.lib) (PyList (PyStr <$> ["a.pdf"; "somedir"; "b.pdf"]))
                  "out.pdf" Toy.roomy
       = (inl (Exn FileNotFoundError ("Input path is not a file: " +:+ q)),
          World (fs Toy.roomy) (disk_free Toy.roomy) (stdout Toy.roomy)
                (trace Toy.roomy ++ evs))
    /\ Forall (fun ev => is_check_event ev = true) evs.
Proof.
  apply (directory_input_rejected (lib := Toy.lib) ["a.pdf"; "somedir"; "b.pdf"]
           "somedir" "out.pdf" Toy.roomy).
  - repeat (constructor; [vm_compute; reflexivity|]). constructor.
  - simpl. auto.
  - vm_compute; reflexivity.
Defined.

Lemma window_passes_validation_witness :
  exists p evs,
    head (pyside6.input_files ToyMore.selected) = Some p
    /\ "merged/out.pdf" <> ""
    /\ trace (snd (merge_pdfs (lib := Toy.lib) (PyList [PyStr "a.pdf"; PyStr "b.pdf"])
                     "merged/out.pdf" ToyMore.guarded_world))
       = trace ToyMore.guarded_world ++ EvExists p :: evs.
Proof.
  apply (window_passes_validation (lib := Toy.lib) ToyMore.selected
           (fst (pyside6.start_merge ToyMore.selected))
           {| pyside6.input_paths := PyList [PyStr "a.pdf"; PyStr "b.pdf"];
              pyside6.output_path := "merged/out.pdf" |}
           ToyMore.guarded_world).
  reflexivity.
Defined.

Lemma merge_session_witness :
  fst (merge_pdfs (lib := Toy.lib) (PyList [PyStr "a.pdf"; PyStr "b.pdf"])
         "merged/out.pdf" Toy.roomy) = inr tt
  /\ pyside6.btn_merge (fst (pyside6.merge_clicked (lib := Toy.lib) ToyMore.selected
                               Toy.roomy)) = true
  /\ pyside6.label_status (fst (pyside6.merge_clicked (lib := Toy.lib) ToyMore.selected
                                  Toy.roomy))
     = "Done: Successfully merged into 'out.pdf'".
Proof.
  split; [vm_compute; reflexivity|].
  destruct (merge_session (lib := Toy.lib) ToyMore.selected Toy.roomy)
    as (_ & _ & _ & _ & _ & Hmerge & Hlabel).
  - discriminate.
  - discriminate.
  - split; [exact Hmerge|].
    change (pyside6.input_files ToyMore.selected) with ["a.pdf"; "b.pdf"] in Hlabel.
    change (pyside6.output_file ToyMore.selected) with "merged/out.pdf" in Hlabel.
    assert (Hok : fst (merge_pdfs (lib := Toy.lib) (PyList (PyStr <$> ["a.pdf"; "b.pdf"]))
                         "merged/out.pdf" Toy.roomy) = inr tt)
      by (vm_compute; reflexivity).
    rewrite Hok in Hlabel. exact (proj1 Hlabel).
Defined.

Lemma window_invariant_witness :
  pyside6.invariant
    {| pyside6.window := pyside6.select_input_pdfs (Some ["a.pdf"; "b.pdf"]) pyside6.init;
       pyside6.queue := [] |}.
Proof.
  apply (window_invariant (lib := Toy.lib)).
  apply (pyside6.reachable_step {| pyside6.window := pyside6.init; pyside6.queue := [] |}).
  - apply pyside6.reachable_init.
  - apply (pyside6.click_select_input
             {| pyside6.window := pyside6.init; pyside6.queue := [] |}
             (Some ["a.pdf"; "b.pdf"])).
    reflexivity.
Defined.

(** C5 as stated fails: with x/a.pdf and y/a.pdf as inputs, the error is
    the same whether the encrypted one is the first or the second. It
    carries the base name only, and so does not tell which input failed. *)
Lemma same_name_inputs_counterexample :
  read_pdf (lib := Toy.lib) (fs ToyMore.bad_in_x) "x/a.pdf"
  = inl (Exn PdfReadError "File has not been decrypted")
  /\ read_pdf (lib := Toy.lib) (fs ToyMore.bad_in_x) "y/a.pdf" = inr [x01]
  /\ read_pdf (lib := Toy.lib) (fs ToyMore.bad_in_y) "x/a.pdf" = inr [x01]
  /\ read_pdf (lib := Toy.lib) (fs ToyMore.bad_in_y) "y/a.pdf"
     = inl (Exn PdfReadError "File has not been decrypted")
  /\ fst (Toy.run ["x/a.pdf"; "y/a.pdf"] "out.pdf" ToyMore.bad_in_x)
     = inl (Exn PdfReadError
              "Error reading PDF file 'a.pdf': File has not been decrypted")
  /\ fst (Toy.run ["x/a.pdf"; "y/a.pdf"] "out.pdf" ToyMore.bad_in_y)
     = inl (Exn PdfReadError
              "Error reading PDF file 'a.pdf': File has not been decrypted")
  /\ mentions "Error reading PDF file 'a.pdf': File has not been decrypted" "x/a.pdf"
     = false
  /\ mentions "Error reading PDF file 'a.pdf': File has not been decrypted" "y/a.pdf"
     = false.
Proof. vm_compute. repeat split. Qed.
